(** * The AWD reader of pyActigraphy ([pyActigraphy/io/awd/awd.py])

    A shallow embedding of [RawAWD.__init__], of its header helpers and of
    the [model] accessor, with the properties of the reader stated over it.

    Modelling choices.
    - The opened file is the list of the lines its iterator yields (each
      line keeps its terminator, as [next(f)] returns it).
    - Text is [string]; the letters and white space of Python are modelled
      on the ASCII range.
    - Exceptions and the messages printed or warned are explicit: a run of
      the reader is a pair of the messages emitted and of either the
      exception raised or the value returned.
    - pandas is an external library.  Its three text parsers
      ([pd.to_datetime], [pd.Timedelta], the frequency aliases of
      [pd.date_range]) are the fields of the class [Pandas]; the general
      theorems hold for any instance, and the module [Ref] gives one
      instance to run the reader on concrete files.  Instants and durations
      are integers (nanoseconds for pandas); the 64-bit range limit of
      pandas is not represented.  [date_range] and the label slice
      [.loc[a:b]] are written out for a fixed step and an ascending index,
      which is what a positive step gives.
    - [BaseRaw] is not part of this file: the record [RawAWD] holds the
      arguments the reader passes to its constructor. *)

From Stdlib Require Import ZArith List String Ascii Bool Lia PeanoNat.
From Stdlib Require DecimalString DecimalPos DecimalZ.
Import ListNotations.

Open Scope string_scope.
Open Scope Z_scope.

(* ------------------------------------------------------------------ *)
(** ** Python built-ins used by the reader *)

Module Py.

Definition LF : ascii := "010"%char.
Definition nl : string := String LF EmptyString.

Definition code (c : ascii) : nat := nat_of_ascii c.

Definition between (lo hi : nat) (c : ascii) : bool :=
  ((lo <=? code c) && (code c <=? hi))%nat.

(** [str.isspace] on ASCII: TAB, LF, VT, FF, CR, FS, GS, RS, US, SPACE. *)
Definition isspace (c : ascii) : bool :=
  between 9 13 c || between 28 31 c || (code c =? 32)%nat.

(** The white space [int()] skips around a literal: TAB..CR and SPACE. *)
Definition isspace_int (c : ascii) : bool :=
  between 9 13 c || (code c =? 32)%nat.

Definition isdigit (c : ascii) : bool := between 48 57 c.
Definition isupper (c : ascii) : bool := between 65 90 c.
Definition islower (c : ascii) : bool := between 97 122 c.

(** [c.isalpha()] for a single character, on the ASCII range: the letters
    outside it, which Python also accepts, are not represented. *)
Definition isalpha (c : ascii) : bool := isupper c || islower c.

(** [c.capitalize()] for a single character, on the ASCII range (where the
    result is one character). *)
Definition capitalize (c : ascii) : ascii :=
  if islower c then ascii_of_nat (code c - 32) else c.

(** [s.replace(LF, '')]: every line feed is removed. *)
Fixpoint replace_nl (s : string) : string :=
  match s with
  | EmptyString => EmptyString
  | String c r =>
      if Ascii.eqb c LF then replace_nl r else String c (replace_nl r)
  end.

Fixpoint lstrip_by (sp : ascii -> bool) (s : string) : string :=
  match s with
  | EmptyString => EmptyString
  | String c r => if sp c then lstrip_by sp r else s
  end.

Fixpoint rstrip_by (sp : ascii -> bool) (s : string) : string :=
  match s with
  | EmptyString => EmptyString
  | String c r =>
      match rstrip_by sp r with
      | EmptyString => if sp c then EmptyString else String c EmptyString
      | r' => String c r'
      end
  end.

Definition strip_by (sp : ascii -> bool) (s : string) : string :=
  rstrip_by sp (lstrip_by sp s).

(** [s.strip()]. *)
Definition strip : string -> string := strip_by isspace.

(** [s.split(' ')[0]]: the text before the first SPACE character (the
    whole of [s] when it has none).  [split] with a separator always
    returns a non-empty list, so the index cannot fail. *)
Fixpoint split_space_head (s : string) : string :=
  match s with
  | EmptyString => EmptyString
  | String c r =>
      if Ascii.eqb c " "%char then EmptyString
      else String c (split_space_head r)
  end.

Definition digit_val (c : ascii) : Z := Z.of_nat (code c - 48).

(** The digits of a decimal literal; single underscores may separate
    digits.  [after_digit] tells whether the previous character was a
    digit: the literal must start and end with one. *)
Fixpoint int_digits (s : string) (acc : Z) (after_digit : bool)
  : option Z :=
  match s with
  | EmptyString => if after_digit then Some acc else None
  | String c r =>
      if isdigit c then int_digits r (10 * acc + digit_val c) true
      else if Ascii.eqb c "_"%char && after_digit
           then int_digits r acc false
           else None
  end.

(** [int(s)] in base ten: surrounding white space, an optional sign, the
    digits.  [None] stands for [ValueError].  The bound that recent
    interpreters put on the number of digits is not represented. *)
Definition int (s : string) : option Z :=
  match strip_by isspace_int s with
  | String "-" r => option_map Z.opp (int_digits r 0 false)
  | String "+" r => int_digits r 0 false
  | r => int_digits r 0 false
  end.

(** Every character of [s] satisfies [p]. *)
Fixpoint all_chars (p : ascii -> bool) (s : string) : bool :=
  match s with
  | EmptyString => true
  | String c r => p c && all_chars p r
  end.

(** [sep.join(l)]. *)
Fixpoint join (sep : string) (l : list string) : string :=
  match l with
  | [] => EmptyString
  | [x] => x
  | x :: r => x ++ sep ++ join sep r
  end.

(** [dict[k]] and [k in dict.keys()] on a dictionary kept in insertion
    order. *)
Fixpoint lookup (k : string) (d : list (string * string)) : option string :=
  match d with
  | [] => None
  | (k', v) :: r => if String.eqb k k' then Some v else lookup k r
  end.

End Py.

(* ------------------------------------------------------------------ *)
(** ** Exceptions, messages and the monad of a run *)

Inductive exn : Type :=
| StopIteration                     (* [next(f)] on an exhausted file *)
| IndexError                        (* a list, string or index subscript *)
| ValueError_int (tok : string)     (* [int(tok)] *)
| ParserError (txt : string)        (* [pd.to_datetime(txt)] *)
| ValueError_frequency              (* the reader's own [raise ValueError] *)
| ValueError_offset (alias : string)     (* [date_range(freq=alias)] *)
| ValueError_timedelta (txt : string)    (* [pd.Timedelta(txt)] *)
| AttributeError                    (* [self.__device_type] never set *)
| KeyError (key : string).          (* [device_code[key]] *)

(** The classes of the error taxonomy of the documentation. *)
Inductive error_class : Type := ParseError | ConfigurationError | OtherError.

Definition classify (e : exn) : error_class :=
  match e with
  | ValueError_int _ | ParserError _ => ParseError
  | ValueError_frequency => ConfigurationError
  | _ => OtherError
  end.

Inductive event : Type :=
| Printed (msg : string)            (* [print(msg)] *)
| Warned (msg : string).            (* [warnings.warn(msg)] *)

(** A run: the messages emitted, then the exception or the value. *)
Definition M (A : Type) : Type := (list event * (exn + A))%type.

Definition ret {A} (a : A) : M A := ([], inr a).
Definition raise {A} (e : exn) : M A := ([], inl e).
Definition emit (ev : event) : M unit := ([ev], inr tt).

Definition bind {A B} (m : M A) (k : A -> M B) : M B :=
  match m with
  | (l, inl e) => (l, inl e)
  | (l, inr a) => let '(l', r) := k a in ((l ++ l')%list, r)
  end.

Notation "x <- m ;; k" := (bind m (fun x => k))
  (at level 61, m at next level, right associativity).
Notation "m ;;; k" := (bind m (fun _ => k))
  (at level 61, right associativity).

Definition lift {A} (e : exn) (o : option A) : M A :=
  match o with
  | Some a => ret a
  | None => raise e
  end.

Definition events {A} (m : M A) : list event := fst m.
Definition outcome {A} (m : M A) : exn + A := snd m.

(** [l[i]] for a constant index [i >= 0]. *)
Definition getitem {A} (l : list A) (i : nat) : M A :=
  lift IndexError (nth_error l i).

(* ------------------------------------------------------------------ *)
(** ** The class constants of [RawAWD] *)

Definition frequency_code : list (string * string) :=
  [ ("1", "15s"); ("2", "30s"); ("4", "60s"); ("8", "2min");
    ("20", "5min"); ("81", "2s"); ("C1", "5s"); ("C2", "10s") ].

Definition device_code : list (string * string) :=
  [ ("D", "Actiwatch-7");
    ("I", "Actiwatch-Insomnia (pressure sens.)");
    ("L", "Actiwatch-L (amb. light)");
    ("M", "Actiwatch-Mini");
    ("P", "Actiwatch-L-Plus (amb. light)");
    ("S", "Actiwatch-S (env. sound)");
    ("T", "Actiwatch-T (temp.)");
    ("V", "Actiwatch-4") ].

(* ------------------------------------------------------------------ *)
(** ** The header helpers *)

Definition extract_awd_name (header : list string) : M string :=
  h <- getitem header 0 ;;
  ret (Py.replace_nl h).

Definition msg_no_frequency : string :=
  "Could not find acquisition frequency in header info.".

(** Returns [None] (after printing) for a code that is not a key of
    [frequency_code]. *)
Definition extract_awd_frequency (header : list string)
  : M (option string) :=
  h <- getitem header 3 ;;
  let freq := Py.strip (Py.replace_nl h) in
  match Py.lookup freq frequency_code with
  | None => emit (Printed msg_no_frequency) ;;; ret None
  | Some alias => ret (Some alias)
  end.

Definition extract_awd_uuid (header : list string) : M string :=
  h <- getitem header 5 ;;
  ret (Py.replace_nl h).

Definition wrn_msg : string :=
  "Only the first data column will be used, assuming it corresponds "
  ++ "to activity counts.".

Definition msg_unsupported (dcode : string) : string :=
  "The model specified in the UUID (" ++ dcode ++ ")"
  ++ " is not supported at the moment." ++ Py.nl
  ++ "List of supported Actiwatch models:" ++ Py.nl
  ++ Py.join Py.nl
       (map (fun kd => "- " ++ fst kd ++ ": " ++ snd kd) device_code)
  ++ Py.nl
  ++ wrn_msg.

Definition msg_undetermined : string :=
  "Cannot detect from the header info (UUID) "
  ++ "which Actiwatch model was used to acquire the data."
  ++ Py.nl
  ++ wrn_msg.

(** The device type: a key of [device_code], or ['U'] for a letter that is
    not a key, or ['X'] when the first character is not a letter. *)
Definition extract_awd_model (uuid : string) : M string :=
  match uuid with
  | EmptyString => raise IndexError
  | String c _ =>
      if Py.isalpha c then
        let dcode := String (Py.capitalize c) EmptyString in
        match Py.lookup dcode device_code with
        | Some _ => ret dcode
        | None => emit (Warned (msg_unsupported dcode)) ;;; ret "U"
        end
      else
        emit (Warned msg_undetermined) ;;; ret "X"
  end.

(* ------------------------------------------------------------------ *)
(** ** pandas *)

(** The text parsers of pandas, [None] when pandas raises.
    [to_offset alias] is the fixed step of a frequency alias as
    [pd.date_range] understands it. *)
Class Pandas : Type := {
  to_datetime : string -> option Z;
  Timedelta : string -> option Z;
  to_offset : string -> option Z
}.

(** A time-indexed series: (label, value) pairs in index order. *)
Definition Series : Type := list (Z * Z).

Definition index (s : Series) : list Z := map fst s.

(** [pd.Series(data=data, index=idx)], for lists of equal length. *)
Definition mkSeries (data idx : list Z) : Series := combine idx data.

(** The regular index [start, start + step, ...] of [periods] labels. *)
Definition regular_index (start : Z) (periods : nat) (step : Z) : list Z :=
  map (fun i => start + Z.of_nat i * step) (seq 0 periods).

(** [idx[-1]]. *)
Fixpoint last_label (idx : list Z) : option Z :=
  match idx with
  | [] => None
  | [t] => Some t
  | _ :: r => last_label r
  end.

(** [s.loc[a:b]] on an ascending index: both ends are included. *)
Definition loc_slice (a b : Z) (s : Series) : Series :=
  filter (fun p => (a <=? fst p) && (fst p <=? b)) s.

(* ------------------------------------------------------------------ *)
(** ** The reader *)

(** What [RawAWD.__init__] hands to the base class, and the private
    attribute [__device_type] ([None]: the attribute was never assigned). *)
Record RawAWD : Type := mkRawAWD {
  raw_name : string;
  raw_uuid : string;
  raw_format : string;
  raw_axial_mode : string;
  raw_start_time : Z;
  raw_period : Z;
  raw_frequency : Z;
  raw_data : Series;
  raw_light : option Series;
  device_type : option string
}.

(** [header = [next(f) for x in range(header_size)]] and the lines left in
    the file. *)
Definition read_header (header_size : Z) (f : list string)
  : M (list string * list string) :=
  let n := Z.to_nat header_size in
  if (n <=? List.length f)%nat then ret (firstn n f, skipn n f)
  else raise StopIteration.

(** [int(line.split(' ')[0])]. *)
Definition parse_sample (line : string) : M Z :=
  let tok := Py.split_space_head line in
  lift (ValueError_int tok) (Py.int tok).

(** [data = [int(line.split(' ')[0]) for line in f]]. *)
Fixpoint load_data (f : list string) : M (list Z) :=
  match f with
  | [] => ret []
  | line :: rest =>
      v <- parse_sample line ;;
      vs <- load_data rest ;;
      ret (v :: vs)
  end.

Section Reader.

Context {P : Pandas}.

Definition extract_awd_start_time (header : list string) : M Z :=
  h1 <- getitem header 1 ;;
  h2 <- getitem header 2 ;;
  let txt := h1 ++ " " ++ h2 in
  lift (ParserError txt) (to_datetime txt).

(** [pd.date_range(start=start, periods=periods, freq=freq)]. *)
Definition date_range (start : Z) (periods : nat) (freq : string)
  : M (list Z) :=
  step <- lift (ValueError_offset freq) (to_offset freq) ;;
  ret (regular_index start periods step).

Definition pd_Timedelta (txt : string) : M Z :=
  lift (ValueError_timedelta txt) (Timedelta txt).

Definition pd_to_datetime (txt : string) : M Z :=
  lift (ParserError txt) (to_datetime txt).

(** [if uuid: self.__device_type = RawAWD.__extract_awd_model(uuid)]:
    the attribute is assigned for a non-empty identifier only. *)
Definition assign_device_type (uuid : string) : M (option string) :=
  match uuid with
  | EmptyString => ret None
  | _ => d <- extract_awd_model uuid ;; ret (Some d)
  end.

(** [if freq is None: ...]: the header's alias, else the caller's, else
    the reader raises. *)
Definition resolve_frequency (freq frequency : option string) : M string :=
  match freq with
  | Some fq => ret fq
  | None =>
      match frequency with
      | Some fq => ret fq
      | None => raise ValueError_frequency
      end
  end.

(** [if start_time is not None: ... else: start_time = start]. *)
Definition window_start (start_time : option string) (start : Z) : M Z :=
  match start_time with
  | Some s => pd_to_datetime s
  | None => ret start
  end.

(** [if period is not None: ... else: ...]: the pair
    [(stop_time, period)]. *)
Definition window_stop (period : option string) (start_time : Z)
    (index_data : Series) : M (Z * Z) :=
  match period with
  | Some p =>
      per <- pd_Timedelta p ;;
      ret (start_time + per, per)
  | None =>
      stop <- lift IndexError (last_label (index index_data)) ;;
      ret (stop, stop - start_time)
  end.

(** [RawAWD.__init__], on the lines of the opened file. *)
Definition RawAWD_init (input : list string) (header_size : Z)
    (frequency start_time period : option string) : M RawAWD :=
  hd <- read_header header_size input ;;
  let header := fst hd in
  data <- load_data (snd hd) ;;
  name <- extract_awd_name header ;;
  freq <- extract_awd_frequency header ;;
  uuid <- extract_awd_uuid header ;;
  start <- extract_awd_start_time header ;;
  dtype <- assign_device_type uuid ;;
  freq <- resolve_frequency freq frequency ;;
  idx <- date_range start (List.length data) freq ;;
  let index_data := mkSeries data idx in
  start_time <- window_start start_time start ;;
  win <- window_stop period start_time index_data ;;
  let stop_time := fst win in
  let period := snd win in
  let index_data := loc_slice start_time stop_time index_data in
  fq <- pd_Timedelta freq ;;
  ret {| raw_name := name;
         raw_uuid := uuid;
         raw_format := "AWD";
         raw_axial_mode := "mono-axial";
         raw_start_time := start_time;
         raw_period := period;
         raw_frequency := fq;
         raw_data := index_data;
         raw_light := None;
         device_type := dtype |}.

(** [read_raw_awd] passes its arguments on. *)
Definition read_raw_awd := RawAWD_init.

End Reader.

(** The [model] property: [RawAWD.device_code[self.__device_type]]. *)
Definition model (self : RawAWD) : M string :=
  d <- lift AttributeError (device_type self) ;;
  lift (KeyError d) (Py.lookup d device_code).

(** The accessor applied to whatever the reader returned. *)
Definition model_of (run : M RawAWD) : M string :=
  self <- run ;; model self.

(* ------------------------------------------------------------------ *)
(** ** A reference instance of [Pandas]

    ISO timestamps [YYYY-MM-DD HH:MM:SS] (line feeds and outer blanks
    ignored) and the aliases [<n>s], [<n>min], [<n>h]; enough to run the
    reader on concrete files.  The unit is the second. *)

Module Ref.

Fixpoint number (s : string) (acc : Z) : option Z :=
  match s with
  | EmptyString => Some acc
  | String c r =>
      if Py.isdigit c then number r (10 * acc + Py.digit_val c) else None
  end.

Definition field (s : string) (pos len : nat) : option Z :=
  let t := substring pos len s in
  if (String.length t =? len)%nat then number t 0 else None.

Definition sep_at (s : string) (pos : nat) (c : ascii) : bool :=
  match get pos s with
  | Some c' => Ascii.eqb c c'
  | None => false
  end.

(** Days from 1970-01-01 to the civil date [y-m-d]. *)
Definition days_from_civil (y m d : Z) : Z :=
  let y' := if m <=? 2 then y - 1 else y in
  let era := y' / 400 in
  let yoe := y' - era * 400 in
  let mp := (m + 9) mod 12 in
  let doy := (153 * mp + 2) / 5 + d - 1 in
  let doe := yoe * 365 + yoe / 4 - yoe / 100 + doy in
  era * 146097 + doe - 719468.

Definition iso_datetime (txt : string) : option Z :=
  let s := Py.strip (Py.replace_nl txt) in
  match field s 0 4, field s 5 2, field s 8 2,
        field s 11 2, field s 14 2, field s 17 2 with
  | Some y, Some mo, Some d, Some h, Some mi, Some se =>
      if (String.length s =? 19)%nat
         && sep_at s 4 "-" && sep_at s 7 "-" && sep_at s 10 " "
         && sep_at s 13 ":" && sep_at s 16 ":"
         && (1 <=? mo) && (mo <=? 12) && (1 <=? d) && (d <=? 31)
         && (h <=? 23) && (mi <=? 59) && (se <=? 59)
      then Some (days_from_civil y mo d * 86400 + h * 3600 + mi * 60 + se)
      else None
  | _, _, _, _, _, _ => None
  end.

Fixpoint alias (s : string) (acc : Z) (seen : bool) : option Z :=
  match s with
  | EmptyString => None
  | String c r =>
      if Py.isdigit c then alias r (10 * acc + Py.digit_val c) true
      else
        let n := if seen then acc else 1 in
        if String.eqb s "s" then Some n
        else if String.eqb s "min" then Some (60 * n)
        else if String.eqb s "h" then Some (3600 * n)
        else None
  end.

Definition tick (s : string) : option Z := alias s 0 false.

#[export] Instance pandas : Pandas :=
  {| to_datetime := iso_datetime; Timedelta := tick; to_offset := tick |}.

End Ref.

(** Files with the name and start time of the worked scenario of the
    documentation, and the given frequency code, identifier and data
    lines. *)
Definition ln (s : string) : string := s ++ Py.nl.

Definition awd_header (code uuid : string) : list string :=
  [ ln "Subject1"; ln "2021-01-01"; ln "08:00:00"; ln code; ln "...";
    ln uuid; ln "..." ].

Definition awd_file (code uuid : string) (data_lines : list string)
  : list string :=
  (awd_header code uuid ++ data_lines)%list.

(** The scenario itself. *)
Definition scenario_header : list string := awd_header "1" "D123456".

Definition scenario_lines : list string :=
  [ ln "10 x"; ln "20 y"; ln "5 z"; ln "0 w" ].

Definition scenario_file : list string :=
  awd_file "1" "D123456" scenario_lines.

(** The scenario with another identifier on line 5. *)
Definition file_with_uuid (uuid : string) : list string :=
  awd_file "1" uuid scenario_lines.

(** The start time of the scenario, in seconds since the epoch. *)
Definition scenario_start : Z := 1609488000.

(** The reader with the reference instance and the default header size. *)
Definition read_ref (input : list string)
    (frequency start_time period : option string) : M RawAWD :=
  read_raw_awd (P := Ref.pandas) input 7 frequency start_time period.

(* ------------------------------------------------------------------ *)
(** ** The data loader as the documentation words it

    Follows the documentation, not the code: each line is split on white
    space and its first token is parsed as an integer. *)

Module Doc.

Fixpoint until_space (s : string) : string :=
  match s with
  | EmptyString => EmptyString
  | String c r =>
      if Py.isspace c then EmptyString else String c (until_space r)
  end.

(** The first white-space delimited token of a line. *)
Definition first_token (line : string) : string :=
  until_space (Py.lstrip_by Py.isspace line).

Definition parse_sample (line : string) : M Z :=
  let tok := first_token line in
  lift (ValueError_int tok) (Py.int tok).

Fixpoint load_data (f : list string) : M (list Z) :=
  match f with
  | [] => ret []
  | line :: rest =>
      v <- parse_sample line ;;
      vs <- load_data rest ;;
      ret (v :: vs)
  end.

End Doc.

(** A data line whose columns are separated by a TAB. *)
Definition tab_line : string := "10" ++ String "009" "x" ++ Py.nl.

(* ------------------------------------------------------------------ *)
(** ** Well-formed inputs *)

Section WellFormed.

Context {P : Pandas}.

(** The file has its header lines, every data line holds a sample and the
    header helpers return [name], [freq], [uuid] and [start]. *)
Definition header_ok (input : list string) (header_size : Z)
    (name : string) (freq : option string) (uuid : string) (start : Z)
    (data : list Z) : Prop :=
  let n := Z.to_nat header_size in
  (n <= List.length input)%nat
  /\ outcome (load_data (skipn n input)) = inr data
  /\ outcome (extract_awd_name (firstn n input)) = inr name
  /\ outcome (extract_awd_frequency (firstn n input)) = inr freq
  /\ outcome (extract_awd_uuid (firstn n input)) = inr uuid
  /\ outcome (extract_awd_start_time (firstn n input)) = inr start.

(** The sampling alias resolves to [fq], which pandas reads as the
    positive fixed step [step], as a frequency and as a duration. *)
Definition sampling (freq frequency : option string) (fq : string)
    (step : Z) : Prop :=
  outcome (resolve_frequency freq frequency) = inr fq
  /\ to_offset fq = Some step
  /\ Timedelta fq = Some step
  /\ 0 < step.

(** The full regular series of a file. *)
Definition full_series (start : Z) (data : list Z) (step : Z) : Series :=
  mkSeries data (regular_index start (List.length data) step).

End WellFormed.

(* ------------------------------------------------------------------ *)
(** ** Further notions for the properties of the reader *)

(** [s] holds no line feed, no SPACE, no white space. *)
Definition no_lf (s : string) : bool :=
  Py.all_chars (fun c => negb (Ascii.eqb c Py.LF)) s.

Definition no_space (s : string) : bool :=
  Py.all_chars (fun c => negb (Ascii.eqb c " ")) s.

Definition no_blank (s : string) : bool :=
  Py.all_chars (fun c => negb (Py.isspace c)) s.

Definition all_blank (s : string) : bool := Py.all_chars Py.isspace s.

(* ------------------------------------------------------------------ *)
(** ** Laws of the monad *)

Lemma outcome_bind {A B} (m : M A) (k : A -> M B) :
  outcome (bind m k) =
  match outcome m with
  | inl e => inl e
  | inr a => outcome (k a)
  end.
Proof.
  destruct m as [l [e | a]]; simpl; [reflexivity |].
  destruct (k a); reflexivity.
Qed.

Lemma events_bind {A B} (m : M A) (k : A -> M B) :
  events (bind m k) =
  (events m ++ match outcome m with
               | inl _ => []
               | inr a => events (k a)
               end)%list.
Proof.
  destruct m as [l [e | a]]; simpl.
  - now rewrite app_nil_r.
  - destruct (k a); reflexivity.
Qed.

Lemma outcome_lift {A} (e : exn) (o : option A) :
  outcome (lift e o) = match o with Some a => inr a | None => inl e end.
Proof. destruct o; reflexivity. Qed.

Lemma events_lift {A} (e : exn) (o : option A) : events (lift e o) = [].
Proof. destruct o; reflexivity. Qed.

Lemma run_eta {A} (m : M A) : m = (events m, outcome m).
Proof. destruct m; reflexivity. Qed.

(* ------------------------------------------------------------------ *)
(** ** The stages of the reader, one by one *)

Lemma outcome_read_header hs input :
  outcome (read_header hs input) =
  if (Z.to_nat hs <=? List.length input)%nat
  then inr (firstn (Z.to_nat hs) input, skipn (Z.to_nat hs) input)
  else inl StopIteration.
Proof. unfold read_header. now destruct (_ <=? _)%nat. Qed.

Lemma events_read_header hs input : events (read_header hs input) = [].
Proof. unfold read_header. now destruct (_ <=? _)%nat. Qed.

Lemma outcome_parse_sample line :
  outcome (parse_sample line) =
  match Py.int (Py.split_space_head line) with
  | Some v => inr v
  | None => inl (ValueError_int (Py.split_space_head line))
  end.
Proof. unfold parse_sample. apply outcome_lift. Qed.

Lemma events_load_data f : events (load_data f) = [].
Proof.
  induction f as [| line rest IH]; [reflexivity |].
  cbn [load_data]. rewrite events_bind. unfold parse_sample at 1.
  rewrite events_lift. cbn [app].
  destruct (outcome (parse_sample line)); [reflexivity |].
  rewrite events_bind, IH. cbn [app].
  now destruct (outcome (load_data rest)).
Qed.

Lemma outcome_load_data_cons line rest :
  outcome (load_data (line :: rest)) =
  match Py.int (Py.split_space_head line) with
  | None => inl (ValueError_int (Py.split_space_head line))
  | Some v =>
      match outcome (load_data rest) with
      | inl e => inl e
      | inr vs => inr (v :: vs)
      end
  end.
Proof.
  cbn [load_data]. rewrite outcome_bind, outcome_parse_sample.
  destruct (Py.int _); [| reflexivity].
  rewrite outcome_bind. now destruct (outcome (load_data rest)).
Qed.

Lemma outcome_extract_awd_name header :
  outcome (extract_awd_name header) =
  match nth_error header 0 with
  | Some h => inr (Py.replace_nl h)
  | None => inl IndexError
  end.
Proof.
  unfold extract_awd_name, getitem. rewrite outcome_bind, outcome_lift.
  now destruct (nth_error header 0).
Qed.

Lemma events_extract_awd_name header : events (extract_awd_name header) = [].
Proof.
  unfold extract_awd_name, getitem. rewrite events_bind, events_lift.
  now destruct (outcome _).
Qed.

Lemma outcome_extract_awd_frequency header :
  outcome (extract_awd_frequency header) =
  match nth_error header 3 with
  | Some h => inr (Py.lookup (Py.strip (Py.replace_nl h)) frequency_code)
  | None => inl IndexError
  end.
Proof.
  unfold extract_awd_frequency, getitem. rewrite outcome_bind, outcome_lift.
  destruct (nth_error header 3) as [h |]; [| reflexivity].
  now destruct (Py.lookup _ _).
Qed.

Lemma events_extract_awd_frequency header :
  events (extract_awd_frequency header) =
  match nth_error header 3 with
  | Some h =>
      match Py.lookup (Py.strip (Py.replace_nl h)) frequency_code with
      | Some _ => []
      | None => [Printed msg_no_frequency]
      end
  | None => []
  end.
Proof.
  unfold extract_awd_frequency, getitem. rewrite events_bind, events_lift.
  rewrite outcome_lift.
  destruct (nth_error header 3) as [h |]; [| reflexivity].
  now destruct (Py.lookup _ _).
Qed.

Lemma outcome_extract_awd_uuid header :
  outcome (extract_awd_uuid header) =
  match nth_error header 5 with
  | Some h => inr (Py.replace_nl h)
  | None => inl IndexError
  end.
Proof.
  unfold extract_awd_uuid, getitem. rewrite outcome_bind, outcome_lift.
  now destruct (nth_error header 5).
Qed.

Lemma events_extract_awd_uuid header : events (extract_awd_uuid header) = [].
Proof.
  unfold extract_awd_uuid, getitem. rewrite events_bind, events_lift.
  now destruct (outcome _).
Qed.

Lemma outcome_extract_awd_start_time {P : Pandas} header :
  outcome (extract_awd_start_time header) =
  match nth_error header 1, nth_error header 2 with
  | Some h1, Some h2 =>
      match to_datetime (h1 ++ " " ++ h2) with
      | Some t => inr t
      | None => inl (ParserError (h1 ++ " " ++ h2))
      end
  | _, _ => inl IndexError
  end.
Proof.
  unfold extract_awd_start_time, getitem.
  rewrite outcome_bind, outcome_lift.
  destruct (nth_error header 1) as [h1 |]; [| reflexivity].
  rewrite outcome_bind, outcome_lift.
  destruct (nth_error header 2) as [h2 |]; [| reflexivity].
  apply outcome_lift.
Qed.

Lemma events_extract_awd_start_time {P : Pandas} header :
  events (extract_awd_start_time header) = [].
Proof.
  unfold extract_awd_start_time, getitem.
  rewrite events_bind, events_lift, outcome_lift.
  destruct (nth_error header 1) as [h1 |]; [| reflexivity].
  rewrite events_bind, events_lift, outcome_lift.
  destruct (nth_error header 2) as [h2 |]; [| reflexivity].
  now rewrite events_lift.
Qed.

(** The model extraction never raises on a non-empty identifier. *)
Lemma extract_awd_model_total c rest :
  exists d, outcome (extract_awd_model (String c rest)) = inr d.
Proof.
  cbn [extract_awd_model]. destruct (Py.isalpha c).
  - destruct (Py.lookup _ device_code); eexists; reflexivity.
  - eexists; reflexivity.
Qed.

(* ------------------------------------------------------------------ *)
(** ** The outcome of the reader as one case analysis *)

Section Outcome.

Context {P : Pandas}.
Variables (input : list string) (header_size : Z).
Variables (frequency start_time period : option string).

Lemma init_outcome :
  outcome (RawAWD_init input header_size frequency start_time period) =
  if (Z.to_nat header_size <=? List.length input)%nat then
    match outcome (load_data (skipn (Z.to_nat header_size) input)) with
    | inl e => inl e
    | inr data =>
    match outcome (extract_awd_name (firstn (Z.to_nat header_size) input)) with
    | inl e => inl e
    | inr name =>
    match
      outcome (extract_awd_frequency (firstn (Z.to_nat header_size) input))
    with
    | inl e => inl e
    | inr freq =>
    match outcome (extract_awd_uuid (firstn (Z.to_nat header_size) input)) with
    | inl e => inl e
    | inr uuid =>
    match
      outcome (extract_awd_start_time (firstn (Z.to_nat header_size) input))
    with
    | inl e => inl e
    | inr start =>
    match outcome (assign_device_type uuid) with
    | inl e => inl e
    | inr dtype =>
    match outcome (resolve_frequency freq frequency) with
    | inl e => inl e
    | inr fq =>
    match outcome (date_range start (List.length data) fq) with
    | inl e => inl e
    | inr idx =>
    match outcome (window_start start_time start) with
    | inl e => inl e
    | inr wstart =>
    match outcome (window_stop period wstart (mkSeries data idx)) with
    | inl e => inl e
    | inr win =>
    match outcome (pd_Timedelta fq) with
    | inl e => inl e
    | inr fqd =>
        inr {| raw_name := name;
               raw_uuid := uuid;
               raw_format := "AWD";
               raw_axial_mode := "mono-axial";
               raw_start_time := wstart;
               raw_period := snd win;
               raw_frequency := fqd;
               raw_data := loc_slice wstart (fst win) (mkSeries data idx);
               raw_light := None;
               device_type := dtype |}
    end end end end end end end end end end end
  else inl StopIteration.
Proof.
  unfold RawAWD_init.
  rewrite outcome_bind, outcome_read_header.
  destruct (Z.to_nat header_size <=? List.length input)%nat; [| reflexivity].
  cbn [fst snd].
  repeat (rewrite outcome_bind;
          match goal with
          | |- match ?x with _ => _ end = _ =>
              destruct x; [reflexivity |]
          end).
  reflexivity.
Qed.

(** Only the frequency lookup and the model extraction emit messages. *)
Lemma init_events :
  events (RawAWD_init input header_size frequency start_time period) =
  if (Z.to_nat header_size <=? List.length input)%nat then
    match outcome (load_data (skipn (Z.to_nat header_size) input)) with
    | inl _ => []
    | inr _ =>
    match outcome (extract_awd_name (firstn (Z.to_nat header_size) input)) with
    | inl _ => []
    | inr _ =>
    (events (extract_awd_frequency (firstn (Z.to_nat header_size) input)) ++
     match
      outcome (extract_awd_frequency (firstn (Z.to_nat header_size) input))
    with
     | inl _ => []
     | inr _ =>
     match outcome (extract_awd_uuid (firstn (Z.to_nat header_size) input)) with
     | inl _ => []
     | inr uuid =>
     match
      outcome (extract_awd_start_time (firstn (Z.to_nat header_size) input))
    with
     | inl _ => []
     | inr _ => events (assign_device_type uuid)
     end end end)%list
    end end
  else [].
Proof.
  unfold RawAWD_init.
  rewrite events_bind, events_read_header, outcome_read_header.
 
  destruct (Z.to_nat header_size <=? List.length input)%nat; [| reflexivity].
  cbn [fst snd app].
  rewrite events_bind, events_load_data. cbn [app].
  destruct (outcome (load_data _)) as [e | data]; [reflexivity |].
  rewrite events_bind, events_extract_awd_name. cbn [app].
  destruct (outcome (extract_awd_name _)); [reflexivity |].
  rewrite events_bind. f_equal.
  destruct (outcome (extract_awd_frequency _)) as [e | freq];
    [reflexivity |].
  rewrite events_bind, events_extract_awd_uuid. cbn [app].
  destruct (outcome (extract_awd_uuid _)) as [e | uuid];
    [reflexivity |].
  rewrite events_bind, events_extract_awd_start_time. cbn [app].
  destruct (outcome (extract_awd_start_time _)) as [e | start];
    [reflexivity |].
  rewrite events_bind.
  rewrite <- (app_nil_r (events (assign_device_type uuid))) at 2.
  f_equal.
  destruct (outcome (assign_device_type uuid)) as [e | dtype];
    [reflexivity |].
  rewrite events_bind.
  assert (Hq : forall fq fr, events (resolve_frequency fq fr) = []).
  { intros [fq |] [fr |]; reflexivity. }
  rewrite Hq; clear Hq. cbn [app].
  destruct (outcome (resolve_frequency freq frequency)) as [e | fq];
    [reflexivity |].
  rewrite events_bind.
  assert (Hd : forall m, events (date_range start m fq) = []).
  { intro m. unfold date_range. rewrite events_bind, events_lift.
    now destruct (outcome _). }
  rewrite Hd; clear Hd. cbn [app].
  destruct (outcome (date_range start _ fq)) as [e | idx]; [reflexivity |].
  rewrite events_bind.
  assert (Hs : events (window_start start_time start) = []).
  { destruct start_time; [apply events_lift | reflexivity]. }
  rewrite Hs; clear Hs. cbn [app].
  destruct (outcome (window_start start_time start)) as [e | wstart];
    [reflexivity |].
  rewrite events_bind.
  assert (Hw : forall sr, events (window_stop period wstart sr) = []).
  { intro sr. destruct period; cbn [window_stop]; unfold pd_Timedelta;
      rewrite events_bind, events_lift; now destruct (outcome _). }
  rewrite Hw; clear Hw. cbn [app].
  destruct (outcome (window_stop period wstart _)) as [e | win];
    [reflexivity |].
  rewrite events_bind. unfold pd_Timedelta. rewrite events_lift.
  now destruct (outcome _).
Qed.

End Outcome.

(* ------------------------------------------------------------------ *)
(** ** Regular indexes and label slices *)

Lemma regular_index_length start n step :
  List.length (regular_index start n step) = n.
Proof. unfold regular_index. now rewrite length_map, length_seq. Qed.

Lemma regular_index_nth start n step i :
  (i < n)%nat ->
  nth_error (regular_index start n step) i = Some (start + Z.of_nat i * step).
Proof.
  intro Hi. unfold regular_index.
  rewrite nth_error_map, nth_error_seq.
  apply Nat.ltb_lt in Hi. now rewrite Hi.
Qed.

Lemma regular_index_In start n step t :
  In t (regular_index start n step) ->
  exists i, (i < n)%nat /\ t = start + Z.of_nat i * step.
Proof.
  unfold regular_index. rewrite in_map_iff. intros (i & <- & Hi).
  apply in_seq in Hi. exists i. split; [lia | reflexivity].
Qed.

Lemma last_label_nth idx :
  last_label idx = nth_error idx (List.length idx - 1).
Proof.
  induction idx as [| t [| t' r] IH]; [reflexivity | reflexivity |].
  change (last_label (t :: t' :: r)) with (last_label (t' :: r)).
  rewrite IH.
  replace (List.length (t :: t' :: r) - 1)%nat
    with (S (List.length (t' :: r) - 1)) by (cbn [List.length]; lia).
  reflexivity.
Qed.

Lemma regular_index_last start n step :
  (0 < n)%nat ->
  last_label (regular_index start n step) =
  Some (start + (Z.of_nat n - 1) * step).
Proof.
  intro Hn. rewrite last_label_nth, regular_index_length.
  rewrite regular_index_nth by lia.
  replace (Z.of_nat (n - 1)) with (Z.of_nat n - 1) by lia. reflexivity.
Qed.

Lemma last_label_nil_iff idx : last_label idx = None <-> idx = [].
Proof.
  rewrite last_label_nth. split.
  - destruct idx as [| t r]; [reflexivity |].
    intro H. apply nth_error_None in H. cbn [List.length] in H. lia.
  - now intros ->.
Qed.

Lemma index_mkSeries data idx :
  List.length data = List.length idx -> index (mkSeries data idx) = idx.
Proof.
  unfold index, mkSeries. revert data.
  induction idx as [| t r IH]; intros [| v vs] H; try discriminate;
    [reflexivity |].
  cbn. f_equal. apply IH. now injection H.
Qed.


Lemma index_full_series start data step :
  index (full_series start data step) =
  regular_index start (List.length data) step.
Proof.
  apply index_mkSeries. now rewrite regular_index_length.
Qed.


Lemma full_series_length start data step :
  List.length (full_series start data step) = List.length data.
Proof.
  rewrite <- (length_map fst). fold (index (full_series start data step)).
  now rewrite index_full_series, regular_index_length.
Qed.

Lemma loc_slice_all a b s :
  (forall t, In t (index s) -> a <= t <= b) -> loc_slice a b s = s.
Proof.
  unfold loc_slice, index. induction s as [| [t v] r IH]; intro H;
    [reflexivity |].
  cbn [filter fst].
  assert (Ht : a <= t <= b) by (apply H; now left).
  replace ((a <=? t) && (t <=? b)) with true
    by (symmetry; apply andb_true_iff; split; apply Z.leb_le; lia).
  f_equal. apply IH. intros t' Ht'. apply H. now right.
Qed.

Lemma loc_slice_none a b s :
  (forall t, In t (index s) -> t < a \/ b < t) -> loc_slice a b s = [].
Proof.
  unfold loc_slice, index. induction s as [| [t v] r IH]; intro H;
    [reflexivity |].
  cbn [filter fst].
  assert (Ht : t < a \/ b < t) by (apply H; now left).
  replace ((a <=? t) && (t <=? b)) with false.
  - apply IH. intros t' Ht'. apply H. now right.
  - symmetry. apply andb_false_iff.
    destruct Ht; [left; apply Z.leb_gt | right; apply Z.leb_gt]; lia.
Qed.

Lemma loc_slice_below a b s :
  (forall t, In t (index s) -> a <= t) ->
  loc_slice a b s = filter (fun p => fst p <=? b) s.
Proof.
  unfold loc_slice, index. induction s as [| [t v] r IH]; intro H;
    [reflexivity |].
  cbn [filter fst].
  assert (Ht : a <= t) by (apply H; now left).
  replace (a <=? t) with true by (symmetry; apply Z.leb_le; lia).
  cbn [andb]. rewrite IH; [reflexivity |].
  intros t' Ht'. apply H. now right.
Qed.

Lemma loc_slice_In a b s q :
  In q (loc_slice a b s) <-> In q s /\ a <= fst q <= b.
Proof.
  unfold loc_slice. rewrite filter_In, andb_true_iff, !Z.leb_le. tauto.
Qed.

(** With a positive step the labels lie between the first and the last. *)
Lemma regular_index_bounds start n step t :
  0 < step ->
  In t (regular_index start n step) ->
  start <= t <= start + (Z.of_nat n - 1) * step.
Proof.
  intros Hs Ht. apply regular_index_In in Ht as (i & Hi & ->). nia.
Qed.

(* ------------------------------------------------------------------ *)
(** ** When the reader returns, and what *)

Section Returns.

Context {P : Pandas}.

Lemma assign_device_type_total uuid :
  exists d, outcome (assign_device_type uuid) = inr d.
Proof.
  destruct uuid as [| c r]; [now exists None |].
  destruct (extract_awd_model_total c r) as [d Hd].
  exists (Some d). unfold assign_device_type.
  now rewrite outcome_bind, Hd.
Qed.

Lemma outcome_date_range start m fq :
  outcome (date_range start m fq) =
  match to_offset fq with
  | Some step => inr (regular_index start m step)
  | None => inl (ValueError_offset fq)
  end.
Proof.
  unfold date_range. rewrite outcome_bind, outcome_lift.
  now destruct (to_offset fq).
Qed.

Lemma outcome_window_stop_period p wstart s :
  outcome (window_stop (Some p) wstart s) =
  match Timedelta p with
  | Some per => inr (wstart + per, per)
  | None => inl (ValueError_timedelta p)
  end.
Proof.
  cbn [window_stop]. unfold pd_Timedelta.
  rewrite outcome_bind, outcome_lift. now destruct (Timedelta p).
Qed.

Lemma outcome_window_stop_none wstart s :
  outcome (window_stop None wstart s) =
  match last_label (index s) with
  | Some stop => inr (stop, stop - wstart)
  | None => inl IndexError
  end.
Proof.
  cbn [window_stop]. rewrite outcome_bind, outcome_lift.
  now destruct (last_label (index s)).
Qed.

Lemma init_returns input hs frequency start_time period
    name freq uuid start data dtype fq step fqd wstart win :
  header_ok input hs name freq uuid start data ->
  outcome (assign_device_type uuid) = inr dtype ->
  outcome (resolve_frequency freq frequency) = inr fq ->
  to_offset fq = Some step ->
  Timedelta fq = Some fqd ->
  outcome (window_start start_time start) = inr wstart ->
  outcome (window_stop period wstart (full_series start data step))
    = inr win ->
  outcome (RawAWD_init input hs frequency start_time period) =
  inr {| raw_name := name;
         raw_uuid := uuid;
         raw_format := "AWD";
         raw_axial_mode := "mono-axial";
         raw_start_time := wstart;
         raw_period := snd win;
         raw_frequency := fqd;
         raw_data := loc_slice wstart (fst win) (full_series start data step);
         raw_light := None;
         device_type := dtype |}.
Proof.
  intros (Hn & Hdata & Hname & Hfreq & Huuid & Hstart) Hd Hfq Hoff Htd
         Hws Hwin.
  rewrite init_outcome.
  apply Nat.leb_le in Hn. rewrite Hn, Hdata, Hname, Hfreq, Huuid, Hstart.
  rewrite Hd, Hfq, outcome_date_range, Hoff, Hws.
  fold (full_series start data step). rewrite Hwin.
  unfold pd_Timedelta. now rewrite outcome_lift, Htd.
Qed.

Lemma init_returns_inv input hs frequency start_time period r :
  outcome (RawAWD_init input hs frequency start_time period) = inr r ->
  exists name freq uuid start data dtype fq step fqd wstart win,
    header_ok input hs name freq uuid start data
    /\ outcome (assign_device_type uuid) = inr dtype
    /\ outcome (resolve_frequency freq frequency) = inr fq
    /\ to_offset fq = Some step
    /\ Timedelta fq = Some fqd
    /\ outcome (window_start start_time start) = inr wstart
    /\ outcome (window_stop period wstart (full_series start data step))
       = inr win
    /\ r = {| raw_name := name;
              raw_uuid := uuid;
              raw_format := "AWD";
              raw_axial_mode := "mono-axial";
              raw_start_time := wstart;
              raw_period := snd win;
              raw_frequency := fqd;
              raw_data :=
                loc_slice wstart (fst win) (full_series start data step);
              raw_light := None;
              device_type := dtype |}.
Proof.
  rewrite init_outcome.
  destruct (_ <=? _)%nat eqn:Hn; [| discriminate].
  destruct (outcome (load_data _)) as [| data] eqn:Hdata; [discriminate |].
  destruct (outcome (extract_awd_name _)) as [| name] eqn:Hname;
    [discriminate |].
  destruct (outcome (extract_awd_frequency _)) as [| freq] eqn:Hfreq;
    [discriminate |].
  destruct (outcome (extract_awd_uuid _)) as [| uuid] eqn:Huuid;
    [discriminate |].
  destruct (outcome (extract_awd_start_time _)) as [| start] eqn:Hstart;
    [discriminate |].
  destruct (outcome (assign_device_type _)) as [| dtype] eqn:Hd;
    [discriminate |].
  destruct (outcome (resolve_frequency _ _)) as [| fq] eqn:Hfq;
    [discriminate |].
  rewrite outcome_date_range.
  destruct (to_offset fq) as [step |] eqn:Hoff; [| discriminate].
  destruct (outcome (window_start _ _)) as [| wstart] eqn:Hws;
    [discriminate |].
  destruct (outcome (window_stop _ _ _)) as [| win] eqn:Hwin;
    [discriminate |].
  unfold pd_Timedelta. rewrite outcome_lift.
  destruct (Timedelta fq) as [fqd |] eqn:Htd; [| discriminate].
  intro H. injection H as <-.
  exists name, freq, uuid, start, data, dtype, fq, step, fqd, wstart, win.
  apply Nat.leb_le in Hn. unfold header_ok. now repeat split.
Qed.

End Returns.

(* ------------------------------------------------------------------ *)
(** ** The device model *)

(** The accessor on any record the reader returns, by the first character
    of the identifier: a name for a mapped letter, [KeyError] for the codes
    'U' and 'X', [AttributeError] for an empty identifier. *)
Lemma model_after_init {P : Pandas} (input : list string) (hs : Z)
    (frequency start_time period : option string) (r : RawAWD) :
  outcome (RawAWD_init input hs frequency start_time period) = inr r ->
  match raw_uuid r with
  | EmptyString => model r = ([], inl AttributeError)
  | String c _ =>
      if Py.isalpha c then
        match Py.lookup (String (Py.capitalize c) "") device_code with
        | Some m => model r = ([], inr m)
        | None => model r = ([], inl (KeyError "U"))
        end
      else model r = ([], inl (KeyError "X"))
  end.
Proof.
  intro Hr.
  apply init_returns_inv in Hr
    as (name & freq & uuid & start & data & dtype & fq & step & fqd
        & wstart & win & _ & Hd & _ & _ & _ & _ & _ & ->).
  cbn [raw_uuid]. destruct uuid as [| c rest].
  - cbn in Hd. injection Hd as <-. reflexivity.
  - unfold assign_device_type in Hd. rewrite outcome_bind in Hd.
    cbn [extract_awd_model] in Hd.
    destruct (Py.isalpha c).
    + destruct (Py.lookup (String (Py.capitalize c) "") device_code)
        as [m |] eqn:Hm.
      * cbn in Hd. injection Hd as <-.
        unfold model. cbn [device_type lift bind ret]. now rewrite Hm.
      * cbn in Hd. injection Hd as <-. reflexivity.
    + cbn in Hd. injection Hd as <-. reflexivity.
Qed.

(** C1.  On "d1234" the accessor returns "Actiwatch-7".  On "9xyz" and on
    "z999" the reader warns and records the codes 'X' and 'U'; these are not
    keys of [device_code], so the accessor raises [KeyError] where a
    sentinel name was expected. *)
Theorem model_on_sentinel_codes :
  model_of (read_ref (file_with_uuid "d1234") None None None)
    = ([], inr "Actiwatch-7")
  /\ model_of (read_ref (file_with_uuid "9xyz") None None None)
    = ([Warned msg_undetermined], inl (KeyError "X"))
  /\ model_of (read_ref (file_with_uuid "z999") None None None)
    = ([Warned (msg_unsupported "Z")], inl (KeyError "U")).
Proof. repeat split; vm_compute; reflexivity. Qed.

(* ------------------------------------------------------------------ *)
(** ** The data loader *)

Lemma load_data_spec (f : list string) :
  match outcome (load_data f) with
  | inr data =>
      map (fun l => Py.int (Py.split_space_head l)) f = map Some data
  | inl e =>
      exists pre line post,
        f = (pre ++ line :: post)%list
        /\ Forall (fun l => Py.int (Py.split_space_head l) <> None) pre
        /\ Py.int (Py.split_space_head line) = None
        /\ e = ValueError_int (Py.split_space_head line)
  end.
Proof.
  induction f as [| line rest IH]; [reflexivity |].
  rewrite outcome_load_data_cons.
  destruct (Py.int (Py.split_space_head line)) as [v |] eqn:Hv.
  - destruct (outcome (load_data rest)) as [e | vs].
    + destruct IH as (pre & bad & post & -> & Hpre & Hbad & ->).
      exists (line :: pre), bad, post. repeat split; try assumption.
      constructor; [congruence | assumption].
    + cbn [map]. now rewrite Hv, IH.
  - exists [], line, rest. repeat split; [constructor | assumption].
Qed.

(* ------------------------------------------------------------------ *)
(** ** The loader against its documentation

    Whatever the reader's loader accepts, splitting on white space accepts
    too, with the same integer. *)

Lemma isspace_int_isspace c : Py.isspace_int c = true -> Py.isspace c = true.
Proof.
  destruct c as [[] [] [] [] [] [] [] []]; vm_compute; congruence.
Qed.

Lemma literal_char_not_space c :
  Py.isdigit c || Ascii.eqb c "_" || Ascii.eqb c "+" || Ascii.eqb c "-"
    = true ->
  Py.isspace c = false.
Proof.
  destruct c as [[] [] [] [] [] [] [] []]; vm_compute; congruence.
Qed.

Lemma space_is_isspace : Py.isspace " " = true.
Proof. reflexivity. Qed.

Lemma int_digits_chars s acc b v :
  Py.int_digits s acc b = Some v ->
  Py.all_chars (fun c => negb (Py.isspace c)) s = true.
Proof.
  revert acc b. induction s as [| c r IH]; intros acc b H; [reflexivity |].
  cbn [Py.int_digits] in H. cbn [Py.all_chars].
  destruct (Py.isdigit c) eqn:Hd.
  - rewrite (literal_char_not_space c) by now rewrite Hd.
    cbn [negb andb]. eapply IH, H.
  - destruct (Ascii.eqb c "_") eqn:Hu; [| discriminate].
    destruct b; [| discriminate]. cbn [andb] in H.
    rewrite (literal_char_not_space c)
      by (rewrite Hu; now rewrite orb_true_r).
    cbn [negb andb]. eapply IH, H.
Qed.

Lemma string_app_assoc (a b c : string) : (a ++ b) ++ c = a ++ (b ++ c).
Proof.
  induction a as [| x r IH]; [reflexivity |]. cbn [append]. now f_equal.
Qed.

Lemma lstrip_by_split sp s :
  exists w, s = w ++ Py.lstrip_by sp s /\ Py.all_chars sp w = true.
Proof.
  induction s as [| c r (w & Hw & Hall)]; [now exists "" |].
  cbn [Py.lstrip_by]. destruct (sp c) eqn:Hc.
  - exists (String c w). cbn [append Py.all_chars].
    rewrite Hc, Hall. split; [now f_equal | reflexivity].
  - now exists "".
Qed.

Lemma lstrip_by_head sp s c r :
  Py.lstrip_by sp s = String c r -> sp c = false.
Proof.
  induction s as [| c' r' IH]; [discriminate |].
  cbn [Py.lstrip_by]. destruct (sp c') eqn:Hc; [exact IH |].
  intro H. injection H as <- _. exact Hc.
Qed.

Lemma rstrip_by_split sp s :
  exists w, s = Py.rstrip_by sp s ++ w /\ Py.all_chars sp w = true.
Proof.
  induction s as [| c r (w & Hw & Hall)]; [now exists "" |].
  cbn [Py.rstrip_by]. destruct (Py.rstrip_by sp r) as [| c' r'] eqn:Hr.
  - destruct (sp c) eqn:Hc.
    + exists (String c w). cbn [append] in *. subst r.
      cbn [Py.all_chars]. now rewrite Hc, Hall.
    + exists w. cbn [append] in *. now subst r.
  - exists w. cbn [append] in *. split; [now f_equal | exact Hall].
Qed.

Lemma strip_by_split sp s :
  exists w1 w2,
    s = w1 ++ Py.strip_by sp s ++ w2
    /\ Py.all_chars sp w1 = true /\ Py.all_chars sp w2 = true.
Proof.
  destruct (lstrip_by_split sp s) as (w1 & H1 & Ha1).
  destruct (rstrip_by_split sp (Py.lstrip_by sp s)) as (w2 & H2 & Ha2).
  exists w1, w2. unfold Py.strip_by. now rewrite <- H2.
Qed.

Lemma lstrip_by_app sp w s :
  Py.all_chars sp w = true -> Py.lstrip_by sp (w ++ s) = Py.lstrip_by sp s.
Proof.
  induction w as [| c r IH]; [reflexivity |].
  cbn [Py.all_chars append Py.lstrip_by]. intro H.
  apply andb_true_iff in H as [Hc Hr]. rewrite Hc. now apply IH.
Qed.

Lemma rstrip_by_clean sp s :
  Py.all_chars (fun c => negb (sp c)) s = true -> Py.rstrip_by sp s = s.
Proof.
  induction s as [| c r IH]; [reflexivity |].
  cbn [Py.all_chars Py.rstrip_by]. intro H.
  apply andb_true_iff in H as [Hc Hr]. rewrite (IH Hr).
  apply negb_true_iff in Hc. rewrite Hc. now destruct r.
Qed.

Lemma strip_by_clean sp s :
  Py.all_chars (fun c => negb (sp c)) s = true -> Py.strip_by sp s = s.
Proof.
  intro H. unfold Py.strip_by.
  assert (Hl : Py.lstrip_by sp s = s).
  { destruct s as [| c r]; [reflexivity |].
    cbn [Py.all_chars] in H. apply andb_true_iff in H as [Hc _].
    apply negb_true_iff in Hc. cbn [Py.lstrip_by]. now rewrite Hc. }
  rewrite Hl. now apply rstrip_by_clean.
Qed.

Lemma all_chars_weaken (p q : ascii -> bool) s :
  (forall c, p c = true -> q c = true) ->
  Py.all_chars p s = true -> Py.all_chars q s = true.
Proof.
  intro Hpq. induction s as [| c r IH]; [reflexivity |].
  cbn [Py.all_chars]. intro H. apply andb_true_iff in H as [Hc Hr].
  now rewrite (Hpq c Hc), (IH Hr).
Qed.

(** The line is its first field followed by nothing or by a SPACE. *)
Lemma split_space_head_split line :
  exists tail,
    line = Py.split_space_head line ++ tail
    /\ (tail = "" \/ exists t, tail = String " " t).
Proof.
  induction line as [| c r (tail & Ht & Htail)];
    [exists ""; split; [reflexivity | now left] |].
  cbn [Py.split_space_head]. destruct (Ascii.eqb c " ") eqn:Hc.
  - apply Ascii.eqb_eq in Hc as ->. exists (String " " r).
    split; [reflexivity | right; now exists r].
  - exists tail. cbn [append]. split; [now f_equal | exact Htail].
Qed.

Lemma until_space_app core tail :
  Py.all_chars (fun c => negb (Py.isspace c)) core = true ->
  (tail = "" \/ exists c t, tail = String c t /\ Py.isspace c = true) ->
  Doc.until_space (core ++ tail) = core.
Proof.
  intros Hcore Htail. induction core as [| c r IH].
  - cbn [append]. destruct Htail as [-> | (c & t & -> & Hc)];
      [reflexivity |].
    cbn [Doc.until_space]. now rewrite Hc.
  - cbn [Py.all_chars] in Hcore. apply andb_true_iff in Hcore as [Hc Hr].
    apply negb_true_iff in Hc. cbn [append Doc.until_space].
    now rewrite Hc, (IH Hr).
Qed.

(** The literal itself: the stripped text with an accepted parse. *)
Lemma int_literal_clean s v :
  Py.int s = Some v ->
  Py.strip_by Py.isspace_int s <> ""
  /\ Py.all_chars (fun c => negb (Py.isspace c))
       (Py.strip_by Py.isspace_int s) = true.
Proof.
  unfold Py.int. destruct (Py.strip_by Py.isspace_int s) as [| c r];
    [discriminate |].
  intro H. split; [discriminate |].
  assert (Hcases :
            (Py.isdigit c || Ascii.eqb c "_" || Ascii.eqb c "+"
             || Ascii.eqb c "-" = true)
            /\ exists acc b w, Py.int_digits r acc b = Some w).
  { destruct (Ascii.eqb c "-") eqn:Hm.
    { apply Ascii.eqb_eq in Hm as ->. split; [reflexivity |].
      destruct (Py.int_digits r 0 false) as [z |] eqn:Hd; [| discriminate].
      exists 0, false, z. exact Hd. }
    destruct (Ascii.eqb c "+") eqn:Hp.
    { apply Ascii.eqb_eq in Hp as ->. split; [reflexivity |].
      exists 0, false, v. exact H. }
    assert (Hgen : Py.int_digits (String c r) 0 false = Some v).
    { destruct c as [[] [] [] [] [] [] [] []];
        solve [exact H | discriminate Hm | discriminate Hp]. }
    cbn [Py.int_digits] in Hgen.
    destruct (Py.isdigit c) eqn:Hd; [| now rewrite andb_false_r in Hgen].
    split; [reflexivity |].
    exists (10 * 0 + Py.digit_val c), true, v. exact Hgen. }
  destruct Hcases as (Hc & acc & b & w & Hr).
  cbn [Py.all_chars]. rewrite (literal_char_not_space c Hc).
  cbn [negb andb]. exact (int_digits_chars _ _ _ _ Hr).
Qed.

Lemma reader_token_is_documented_token line v :
  Py.int (Py.split_space_head line) = Some v ->
  Py.int (Doc.first_token line) = Some v.
Proof.
  intro Hv. set (tok := Py.split_space_head line) in *.
  destruct (int_literal_clean tok v Hv) as (Hne & Hclean).
  destruct (strip_by_split Py.isspace_int tok) as (w1 & w2 & Htok & H1 & H2).
  destruct (split_space_head_split line) as (tail & Hline & Htail).
  fold tok in Hline.
  set (core := Py.strip_by Py.isspace_int tok) in *.
  assert (Hfirst : Doc.first_token line = core).
  { unfold Doc.first_token. rewrite Hline, Htok.
    rewrite !string_app_assoc.
    rewrite lstrip_by_app
      by (eapply all_chars_weaken; [exact isspace_int_isspace | exact H1]).
    assert (Hl : Py.lstrip_by Py.isspace (core ++ w2 ++ tail)
                 = core ++ w2 ++ tail).
    { destruct core as [| c r]; [congruence |].
      cbn [Py.all_chars] in Hclean.
      apply andb_true_iff in Hclean as [Hc _].
      apply negb_true_iff in Hc. cbn [append Py.lstrip_by].
      now rewrite Hc. }
    rewrite Hl. apply until_space_app; [exact Hclean |].
    destruct w2 as [| c r].
    - cbn [append]. destruct Htail as [-> | (t & ->)]; [now left |].
      right. exists " "%char, t. now split.
    - right. exists c, (r ++ tail). split; [reflexivity |].
      cbn [Py.all_chars] in H2. apply andb_true_iff in H2 as [Hc _].
      now apply isspace_int_isspace. }
  rewrite Hfirst. unfold Py.int in *. fold core in Hv.
  rewrite strip_by_clean; [exact Hv |].
  eapply all_chars_weaken; [| exact Hclean].
  intros c Hc. apply negb_true_iff in Hc. apply negb_true_iff.
  destruct (Py.isspace_int c) eqn:Hi; [| reflexivity].
  apply isspace_int_isspace in Hi. congruence.
Qed.

Lemma load_data_refines_doc f data :
  outcome (load_data f) = inr data -> outcome (Doc.load_data f) = inr data.
Proof.
  revert data. induction f as [| line rest IH]; intros data H.
  - exact H.
  - rewrite outcome_load_data_cons in H.
    destruct (Py.int (Py.split_space_head line)) as [v |] eqn:Hv;
      [| discriminate].
    destruct (outcome (load_data rest)) as [| vs] eqn:Hrest;
      [discriminate |].
    injection H as <-.
    cbn [Doc.load_data]. rewrite outcome_bind.
    unfold Doc.parse_sample. rewrite outcome_lift.
    rewrite (reader_token_is_documented_token line v Hv).
    rewrite outcome_bind, (IH vs eq_refl). reflexivity.
Qed.

(** C2, the claim as worded fails: a line whose columns are separated by a
    TAB has the integer 10 as its first white-space token, yet the reader
    rejects it, since it cuts the line at the first SPACE only. *)
Lemma tab_separated_line_rejected :
  outcome (Doc.load_data [tab_line]) = inr [10]
  /\ outcome (load_data [tab_line]) = inl (ValueError_int tab_line)
  /\ outcome (load_data [tab_line]) <> outcome (Doc.load_data [tab_line])
  /\ outcome (read_ref (scenario_header ++ [tab_line]) None None None)
     = inl (ValueError_int tab_line).
Proof.
  repeat split; try (vm_compute; reflexivity).
  vm_compute. discriminate.
Qed.

(** C2, amended.  The loader takes from each line after the header the text
    before its first SPACE character and parses it with [int].  When that
    text is not an integer literal on some line, decoding fails with the
    [ValueError] of the first such line, a ParseError; no line is skipped.
    Otherwise the loaded sequence holds the integer of every data line, in
    file order, and is the data of the series the reader slices; it is then
    also what splitting on white space gives. *)
Theorem data_lines_cut_at_first_space {P : Pandas} (input : list string)
    (hs : Z) (frequency start_time period : option string) :
  (Z.to_nat hs <= List.length input)%nat ->
  let rest := skipn (Z.to_nat hs) input in
  events (load_data rest) = []
  /\ match outcome (load_data rest) with
     | inr data =>
         map (fun l => Py.int (Py.split_space_head l)) rest = map Some data
         /\ List.length data = List.length rest
         /\ outcome (Doc.load_data rest) = inr data
         /\ forall r,
              outcome (RawAWD_init input hs frequency start_time period)
                = inr r ->
              exists start step a b,
                raw_data r = loc_slice a b (full_series start data step)
     | inl e =>
         outcome (RawAWD_init input hs frequency start_time period) = inl e
         /\ classify e = ParseError
         /\ exists pre line post,
              rest = (pre ++ line :: post)%list
              /\ Forall (fun l => Py.int (Py.split_space_head l) <> None) pre
              /\ Py.int (Py.split_space_head line) = None
              /\ e = ValueError_int (Py.split_space_head line)
     end.
Proof.
  intros Hn rest. split; [apply events_load_data |].
  pose proof (load_data_spec rest) as Hspec.
  destruct (outcome (load_data rest)) as [e | data] eqn:Hload.
  - split; [| split; [| exact Hspec]].
    + rewrite init_outcome. apply Nat.leb_le in Hn. rewrite Hn.
      fold rest. now rewrite Hload.
    + destruct Hspec as (? & ? & ? & _ & _ & _ & ->). reflexivity.
  - split; [exact Hspec | split; [| split]].
    + apply (f_equal (@List.length _)) in Hspec.
      now rewrite !length_map in Hspec.
    + now apply load_data_refines_doc.
    + intros r Hr. apply init_returns_inv in Hr
        as (name & freq & uuid & start & data' & dtype & fq & step & fqd
            & wstart & win & Hok & _ & _ & _ & _ & _ & _ & ->).
      destruct Hok as (_ & Hdata' & _). fold rest in Hdata'.
      rewrite Hload in Hdata'. injection Hdata' as <-.
      now exists start, step, wstart, (fst win).
Qed.

Lemma data_lines_cut_at_first_space_witness :
  map (fun l => Py.int (Py.split_space_head l)) (skipn 7 scenario_file)
  = map Some [10; 20; 5; 0].
Proof.
  assert (Hn : (Z.to_nat 7 <= List.length scenario_file)%nat)
    by (vm_compute; lia).
  exact (proj1 (proj2 (data_lines_cut_at_first_space (P := Ref.pandas)
                         scenario_file 7 None None None Hn))).
Defined.

(* ------------------------------------------------------------------ *)
(** ** Which stage raises what *)

Section Raises.

Context {P : Pandas}.

Lemma load_data_raises f e :
  outcome (load_data f) = inl e -> exists tok, e = ValueError_int tok.
Proof.
  intro H. pose proof (load_data_spec f) as Hs. rewrite H in Hs.
  destruct Hs as (_ & line & _ & _ & _ & _ & ->). now eexists.
Qed.

Lemma extract_awd_name_raises header e :
  outcome (extract_awd_name header) = inl e -> e = IndexError.
Proof.
  rewrite outcome_extract_awd_name.
  destruct (nth_error header 0); congruence.
Qed.

Lemma extract_awd_frequency_raises header e :
  outcome (extract_awd_frequency header) = inl e -> e = IndexError.
Proof.
  rewrite outcome_extract_awd_frequency.
  destruct (nth_error header 3); congruence.
Qed.

Lemma extract_awd_uuid_raises header e :
  outcome (extract_awd_uuid header) = inl e -> e = IndexError.
Proof.
  rewrite outcome_extract_awd_uuid.
  destruct (nth_error header 5); congruence.
Qed.

Lemma extract_awd_start_time_raises header e :
  outcome (extract_awd_start_time header) = inl e ->
  e = IndexError
  \/ exists h1 h2,
       nth_error header 1 = Some h1 /\ nth_error header 2 = Some h2
       /\ to_datetime (h1 ++ " " ++ h2) = None
       /\ e = ParserError (h1 ++ " " ++ h2).
Proof.
  rewrite outcome_extract_awd_start_time.
  destruct (nth_error header 1) as [h1 |]; [| left; congruence].
  destruct (nth_error header 2) as [h2 |]; [| left; congruence].
  destruct (to_datetime _) eqn:Ht; [discriminate |].
  intro H. right. exists h1, h2. repeat split; congruence.
Qed.

Lemma assign_device_type_raises uuid e :
  outcome (assign_device_type uuid) <> inl e.
Proof.
  destruct (assign_device_type_total uuid) as [d Hd]. congruence.
Qed.

Lemma resolve_frequency_raises freq frequency e :
  outcome (resolve_frequency freq frequency) = inl e ->
  freq = None /\ frequency = None /\ e = ValueError_frequency.
Proof.
  destruct freq, frequency; cbn; intro H; try discriminate.
  repeat split; congruence.
Qed.

Lemma date_range_raises start m fq e :
  outcome (date_range start m fq) = inl e -> e = ValueError_offset fq.
Proof.
  rewrite outcome_date_range. destruct (to_offset fq); congruence.
Qed.

Lemma window_start_raises start_time start e :
  outcome (window_start start_time start) = inl e ->
  exists s, start_time = Some s /\ to_datetime s = None
            /\ e = ParserError s.
Proof.
  destruct start_time as [s |]; cbn [window_start]; [| discriminate].
  unfold pd_to_datetime. rewrite outcome_lift.
  destruct (to_datetime s) eqn:Hs; [discriminate |].
  intro H. exists s. repeat split; congruence.
Qed.

Lemma window_stop_raises period wstart s e :
  outcome (window_stop period wstart s) = inl e ->
  (exists p, period = Some p /\ e = ValueError_timedelta p)
  \/ (period = None /\ index s = [] /\ e = IndexError).
Proof.
  destruct period as [p |].
  - rewrite outcome_window_stop_period. destruct (Timedelta p);
      [discriminate |].
    intro H. left. exists p. split; congruence.
  - rewrite outcome_window_stop_none.
    destruct (last_label (index s)) eqn:Hl; [discriminate |].
    intro H. right. apply last_label_nil_iff in Hl.
    repeat split; congruence.
Qed.

Lemma pd_Timedelta_raises fq e :
  outcome (pd_Timedelta fq) = inl e -> e = ValueError_timedelta fq.
Proof.
  unfold pd_Timedelta. rewrite outcome_lift.
  destruct (Timedelta fq); congruence.
Qed.

End Raises.

Section Failures.

Context {P : Pandas}.
Variables (input : list string) (header_size : Z).
Variables (frequency start_time period : option string).

(** Every exception the reader can raise, with its origin. *)
Lemma init_raises e :
  outcome (RawAWD_init input header_size frequency start_time period)
    = inl e ->
  e = StopIteration
  \/ (exists tok, e = ValueError_int tok)
  \/ e = IndexError
  \/ (exists h1 h2,
        nth_error (firstn (Z.to_nat header_size) input) 1 = Some h1
        /\ nth_error (firstn (Z.to_nat header_size) input) 2 = Some h2
        /\ to_datetime (h1 ++ " " ++ h2) = None
        /\ e = ParserError (h1 ++ " " ++ h2))
  \/ (frequency = None /\ e = ValueError_frequency)
  \/ (exists fq, e = ValueError_offset fq)
  \/ (exists s, start_time = Some s /\ to_datetime s = None
                /\ e = ParserError s)
  \/ (exists p, e = ValueError_timedelta p).
Proof.
  rewrite init_outcome.
  destruct (_ <=? _)%nat; [| intro H; left; congruence].
  destruct (outcome (load_data _)) as [e0 | data] eqn:Hdata.
  { intro H. injection H as <-. right; left.
    exact (load_data_raises _ _ Hdata). }
  destruct (outcome (extract_awd_name _)) as [e0 | name] eqn:Hname.
  { intro H. injection H as <-. right; right; left.
    exact (extract_awd_name_raises _ _ Hname). }
  destruct (outcome (extract_awd_frequency _)) as [e0 | freq] eqn:Hfreq.
  { intro H. injection H as <-. right; right; left.
    exact (extract_awd_frequency_raises _ _ Hfreq). }
  destruct (outcome (extract_awd_uuid _)) as [e0 | uuid] eqn:Huuid.
  { intro H. injection H as <-. right; right; left.
    exact (extract_awd_uuid_raises _ _ Huuid). }
  destruct (outcome (extract_awd_start_time _)) as [e0 | start] eqn:Hstart.
  { intro H. injection H as <-.
    destruct (extract_awd_start_time_raises _ _ Hstart) as [-> | Hp];
      [right; right; left; reflexivity |].
    right; right; right; left. exact Hp. }
  destruct (outcome (assign_device_type _)) as [e0 | dtype] eqn:Hd.
  { now apply assign_device_type_raises in Hd. }
  destruct (outcome (resolve_frequency _ _)) as [e0 | fq] eqn:Hfq.
  { intro H. injection H as <-.
    apply resolve_frequency_raises in Hfq as (_ & Hnone & ->).
    do 4 right; left. now split. }
  destruct (outcome (date_range _ _ _)) as [e0 | idx] eqn:Hidx.
  { intro H. injection H as <-. apply date_range_raises in Hidx.
    do 5 right; left. now exists fq. }
  destruct (outcome (window_start _ _)) as [e0 | wstart] eqn:Hws.
  { intro H. injection H as <-. apply window_start_raises in Hws.
    do 6 right; left. exact Hws. }
  destruct (outcome (window_stop _ _ _)) as [e0 | win] eqn:Hwin.
  { intro H. injection H as <-.
    apply window_stop_raises in Hwin as [(p & _ & ->) | (_ & _ & ->)].
    - do 7 right. now exists p.
    - right; right; left; reflexivity. }
  destruct (outcome (pd_Timedelta fq)) as [e0 | fqd] eqn:Htd;
    [| discriminate].
  intro H. injection H as <-. apply pd_Timedelta_raises in Htd.
  do 7 right. now exists fq.
Qed.

End Failures.

(* ------------------------------------------------------------------ *)
(** ** A frequency code that is not in the table *)




(* ------------------------------------------------------------------ *)
(** ** A file without data lines *)

(** C10.  When no line follows the header and the caller gives no
    [period], the reader never returns a record; on a file whose header is
    well formed and whose sampling alias and window start resolve, the
    exception is the [IndexError] of [index_data.index[-1]] on the empty
    index.  With a [period] the same file gives a record with an empty
    series. *)
Theorem empty_data_without_period_fails {P : Pandas} (input : list string)
    (hs : Z) (frequency start_time : option string) :
  skipn (Z.to_nat hs) input = [] ->
  (forall r, outcome (RawAWD_init input hs frequency start_time None)
             <> inr r)
  /\ (forall name freq uuid start fq step wstart,
        header_ok input hs name freq uuid start [] ->
        outcome (resolve_frequency freq frequency) = inr fq ->
        to_offset fq = Some step ->
        outcome (window_start start_time start) = inr wstart ->
        outcome (RawAWD_init input hs frequency start_time None)
          = inl IndexError
        /\ forall p per fqd,
             Timedelta p = Some per ->
             Timedelta fq = Some fqd ->
             exists r,
               outcome (RawAWD_init input hs frequency start_time (Some p))
                 = inr r
               /\ raw_data r = []).
Proof.
  intro Hrest. split.
  - intros r Hr.
    apply init_returns_inv in Hr
      as (name & freq & uuid & start & data & dtype & fq & step & fqd
          & wstart & win & Hok & _ & _ & _ & _ & _ & Hwin & _).
    destruct Hok as (_ & Hdata & _). rewrite Hrest in Hdata.
    injection Hdata as <-.
    rewrite outcome_window_stop_none in Hwin. discriminate.
  - intros name freq uuid start fq step wstart Hok Hfq Hoff Hws. split.
    + destruct Hok as (Hn & Hdata & Hname & Hfreq & Huuid & Hstart).
      rewrite init_outcome. apply Nat.leb_le in Hn.
      rewrite Hn, Hdata, Hname, Hfreq, Huuid, Hstart.
      destruct (assign_device_type_total uuid) as [d ->].
      rewrite Hfq, outcome_date_range, Hoff, Hws.
      now rewrite outcome_window_stop_none.
    + intros p per fqd Hp Htd.
      destruct (assign_device_type_total uuid) as [d Hd].
      eexists. split.
      * eapply init_returns; try eassumption.
        now rewrite outcome_window_stop_period, Hp.
      * reflexivity.
Qed.

Lemma empty_data_without_period_fails_witness :
  outcome (read_ref (awd_file "1" "D123456" []) None None None)
    = inl IndexError.
Proof.
  pose proof (empty_data_without_period_fails (P := Ref.pandas)
                (awd_file "1" "D123456" []) 7 None None eq_refl)
    as (_ & Hidx).
  assert (Hok : header_ok (P := Ref.pandas) (awd_file "1" "D123456" []) 7
                  "Subject1" (Some "15s") "D123456" scenario_start []).
  { repeat split; try reflexivity; vm_compute; lia. }
  exact (proj1 (Hidx _ _ _ _ "15s" 15 scenario_start Hok
                  eq_refl eq_refl eq_refl)).
Defined.

(* ------------------------------------------------------------------ *)
(** ** A blank identifier line *)

(** C9.  When header line 5 is empty once its line feed is removed, the
    reader does not assign the device type: every record it returns has no
    [__device_type], and the [model] accessor raises [AttributeError] on
    it.  The reader does return a record on such a file when the rest of
    it is well formed. *)
Theorem blank_uuid_breaks_model {P : Pandas} (input : list string) (hs : Z)
    (frequency start_time period : option string) :
  outcome (extract_awd_uuid (firstn (Z.to_nat hs) input)) = inr "" ->
  (forall r,
     outcome (RawAWD_init input hs frequency start_time period) = inr r ->
     raw_uuid r = "" /\ device_type r = None
     /\ model r = ([], inl AttributeError))
  /\ (forall name freq start data fq step fqd wstart win,
        header_ok input hs name freq "" start data ->
        outcome (resolve_frequency freq frequency) = inr fq ->
        to_offset fq = Some step ->
        Timedelta fq = Some fqd ->
        outcome (window_start start_time start) = inr wstart ->
        outcome (window_stop period wstart (full_series start data step))
          = inr win ->
        exists r,
          outcome (RawAWD_init input hs frequency start_time period) = inr r
          /\ model r = ([], inl AttributeError)).
Proof.
  intro Hblank. split.
  - intros r Hr.
    apply init_returns_inv in Hr
      as (name & freq & uuid & start & data & dtype & fq & step & fqd
          & wstart & win & Hok & Hd & _ & _ & _ & _ & _ & ->).
    destruct Hok as (_ & _ & _ & _ & Huuid & _).
    rewrite Hblank in Huuid. injection Huuid as <-.
    cbn in Hd. injection Hd as <-. repeat split.
  - intros name freq start data fq step fqd wstart win
           Hok Hfq Hoff Htd Hws Hwin.
    eexists. split.
    + eapply init_returns with (dtype := None); try eassumption.
      reflexivity.
    + reflexivity.
Qed.

Lemma blank_uuid_breaks_model_witness :
  exists r,
    outcome (read_ref (awd_file "1" "" scenario_lines) None None None)
      = inr r
    /\ model r = ([], inl AttributeError).
Proof.
  pose proof (blank_uuid_breaks_model (P := Ref.pandas)
                (awd_file "1" "" scenario_lines) 7 None None None eq_refl)
    as (_ & Hex).
  apply (Hex "Subject1" (Some "15s") scenario_start [10; 20; 5; 0]
             "15s" 15 15 scenario_start (scenario_start + 45, 45));
    try reflexivity.
  repeat split; try reflexivity; vm_compute; lia.
Defined.

(* ------------------------------------------------------------------ *)
(** ** The start timestamp *)

(** C8.  The start timestamp is what [pd.to_datetime] makes of header line
    1, a space and header line 2 (both with their line feed): the helper
    returns it exactly when pandas parses that text.  On a file whose
    data lines and other header fields are read without error, decoding
    fails with the [ParserError] of that text, a ParseError, exactly when
    pandas does not parse it; and a record returned without a window start
    carries the parsed timestamp. *)
Theorem start_time_from_lines_1_2 {P : Pandas} (input : list string)
    (hs : Z) (frequency start_time period : option string)
    (name : string) (freq : option string) (uuid : string) (data : list Z)
    (h1 h2 : string) :
  let header := firstn (Z.to_nat hs) input in
  (Z.to_nat hs <= List.length input)%nat ->
  outcome (load_data (skipn (Z.to_nat hs) input)) = inr data ->
  outcome (extract_awd_name header) = inr name ->
  outcome (extract_awd_frequency header) = inr freq ->
  outcome (extract_awd_uuid header) = inr uuid ->
  nth_error header 1 = Some h1 ->
  nth_error header 2 = Some h2 ->
  let txt := h1 ++ " " ++ h2 in
  (forall t, outcome (extract_awd_start_time header) = inr t
             <-> to_datetime txt = Some t)
  /\ (outcome (extract_awd_start_time header) = inl (ParserError txt)
      <-> to_datetime txt = None)
  /\ (outcome (RawAWD_init input hs frequency start_time period)
        = inl (ParserError txt)
      <-> to_datetime txt = None)
  /\ classify (ParserError txt) = ParseError
  /\ (forall r,
        outcome (RawAWD_init input hs frequency None period) = inr r ->
        to_datetime txt = Some (raw_start_time r)).
Proof.
  intros header Hn Hdata Hname Hfreq Huuid H1 H2 txt.
  assert (Hst : outcome (extract_awd_start_time header) =
                match to_datetime txt with
                | Some t => inr t
                | None => inl (ParserError txt)
                end).
  { now rewrite outcome_extract_awd_start_time, H1, H2. }
  repeat split.
  - rewrite Hst. destruct (to_datetime txt); congruence.
  - rewrite Hst. intros ->. reflexivity.
  - rewrite Hst. destruct (to_datetime txt); congruence.
  - rewrite Hst. now intros ->.
  - intro Hr. apply init_raises in Hr.
    destruct Hr as [H | [(? & H) | [H | [(a & b & Ha & Hb & Hnone & H) |
      [(_ & H) | [(? & H) | [(s & _ & Hnone & H) | (? & H)]]]]]]];
      try discriminate.
    + fold header in Ha, Hb. rewrite H1 in Ha. rewrite H2 in Hb.
      injection Ha as <-. injection Hb as <-. exact Hnone.
    + injection H as <-. exact Hnone.
  - intro Hnone. rewrite init_outcome. apply Nat.leb_le in Hn.
    rewrite Hn, Hdata. fold header. rewrite Hname, Hfreq, Huuid, Hst, Hnone.
    reflexivity.
  - intros r Hr.
    apply init_returns_inv in Hr
      as (name' & freq' & uuid' & start & data' & dtype & fq & step & fqd
          & wstart & win & Hok & _ & _ & _ & _ & Hws & _ & ->).
    destruct Hok as (_ & _ & _ & _ & _ & Hstart).
    fold header in Hstart. rewrite Hst in Hstart.
    cbn in Hws. injection Hws as <-. cbn [raw_start_time].
    destruct (to_datetime txt); congruence.
Qed.

Lemma start_time_from_lines_1_2_witness :
  outcome (extract_awd_start_time (P := Ref.pandas) scenario_header)
    = inr scenario_start
  /\ outcome (read_ref (awd_file "1" "D123456" scenario_lines)
                None None None)
     <> inl (ParserError (ln "2021-01-01" ++ " " ++ ln "08:00:00")).
Proof.
  assert (Hn : (Z.to_nat 7
                <= List.length (awd_file "1" "D123456" scenario_lines))%nat)
    by (vm_compute; lia).
  pose proof (start_time_from_lines_1_2 (P := Ref.pandas)
                (awd_file "1" "D123456" scenario_lines) 7 None None None
                "Subject1" (Some "15s") "D123456" [10; 20; 5; 0]
                (ln "2021-01-01") (ln "08:00:00")
                Hn eq_refl eq_refl eq_refl eq_refl eq_refl eq_refl)
    as (Hiff & _ & Hinit & _).
  split.
  - apply Hiff. reflexivity.
  - intro H. apply Hinit in H. vm_compute in H. discriminate.
Defined.

(* ------------------------------------------------------------------ *)
(** ** The series and its window *)

Section Window.

Context {P : Pandas}.


(** The label slice from the first to the last label keeps everything. *)
Lemma loc_slice_full start data step :
  0 < step ->
  loc_slice start (start + (Z.of_nat (List.length data) - 1) * step)
    (full_series start data step)
  = full_series start data step.
Proof.
  intro Hs. apply loc_slice_all. intros t Ht.
  rewrite index_full_series in Ht.
  now apply regular_index_bounds.
Qed.

Lemma last_label_full_series start data step :
  data <> [] ->
  last_label (index (full_series start data step))
  = Some (start + (Z.of_nat (List.length data) - 1) * step).
Proof.
  intro Hne. rewrite index_full_series. apply regular_index_last.
  destruct data; [congruence | cbn; lia].
Qed.

(** The run without window options on a well-formed file. *)
Lemma unwindowed_run input hs frequency name freq uuid start data fq step :
  header_ok input hs name freq uuid start data ->
  sampling freq frequency fq step ->
  data <> [] ->
  exists dtype,
    outcome (RawAWD_init input hs frequency None None) =
    inr {| raw_name := name;
           raw_uuid := uuid;
           raw_format := "AWD";
           raw_axial_mode := "mono-axial";
           raw_start_time := start;
           raw_period := (Z.of_nat (List.length data) - 1) * step;
           raw_frequency := step;
           raw_data := full_series start data step;
           raw_light := None;
           device_type := dtype |}.
Proof.
  intros Hok (Hfq & Hoff & Htd & Hpos) Hne.
  destruct (assign_device_type_total uuid) as [dtype Hd].
  exists dtype.
  rewrite (init_returns input hs frequency None None
             name freq uuid start data dtype fq step step start
             (start + (Z.of_nat (List.length data) - 1) * step,
              (Z.of_nat (List.length data) - 1) * step)
             Hok Hd Hfq Hoff Htd eq_refl).
  - cbn [fst snd]. now rewrite loc_slice_full.
  - rewrite outcome_window_stop_none, last_label_full_series by assumption.
    do 2 f_equal. lia.
Qed.

End Window.



(** C5.  On a well-formed file, decoding with [start_time] = S and
    [period] = P returns the inclusive label slice [S, S + P] of the series
    returned without window options, and that series is the full regular
    series built from the header's start time. *)
Theorem window_is_slice_of_full {P : Pandas} (input : list string) (hs : Z)
    (frequency : option string) (name : string) (freq : option string)
    (uuid : string) (start : Z) (data : list Z) (fq : string) (step : Z)
    (s p : string) (S Pd : Z) :
  header_ok input hs name freq uuid start data ->
  sampling freq frequency fq step ->
  data <> [] ->
  to_datetime s = Some S ->
  Timedelta p = Some Pd ->
  exists r0 r,
    outcome (RawAWD_init input hs frequency None None) = inr r0
    /\ outcome (RawAWD_init input hs frequency (Some s) (Some p)) = inr r
    /\ raw_data r0 = full_series start data step
    /\ raw_data r = loc_slice S (S + Pd) (raw_data r0)
    /\ raw_start_time r = S
    /\ raw_period r = Pd.
Proof.
  intros Hok Hsamp Hne Hs Hp.
  destruct (unwindowed_run input hs frequency name freq uuid start data
              fq step Hok Hsamp Hne) as [dtype Hr0].
  destruct Hsamp as (Hfq & Hoff & Htd & Hpos).
  destruct (assign_device_type_total uuid) as [dtype' Hd].
  do 2 eexists. split; [exact Hr0 |]. split.
  - apply (init_returns input hs frequency (Some s) (Some p)
             name freq uuid start data dtype' fq step step S (S + Pd, Pd)
             Hok Hd Hfq Hoff Htd).
    + cbn [window_start]. unfold pd_to_datetime.
      now rewrite outcome_lift, Hs.
    + now rewrite outcome_window_stop_period, Hp.
  - repeat split.
Qed.

Lemma window_is_slice_of_full_witness :
  exists r0 r,
    outcome (read_ref scenario_file None None None) = inr r0
    /\ outcome (read_ref scenario_file None
                  (Some "2021-01-01 08:00:15") (Some "15s")) = inr r
    /\ raw_data r = loc_slice (scenario_start + 15) (scenario_start + 30)
                      (raw_data r0)
    /\ raw_data r = [ (scenario_start + 15, 20); (scenario_start + 30, 5) ].
Proof.
  assert (Hok : header_ok (P := Ref.pandas) scenario_file 7
                  "Subject1" (Some "15s") "D123456" scenario_start
                  [10; 20; 5; 0])
    by (repeat split; try reflexivity; vm_compute; lia).
  assert (Hs : sampling (P := Ref.pandas) (Some "15s") None "15s" 15)
    by (repeat split; reflexivity).
  assert (Hne : [10; 20; 5; 0] <> []) by discriminate.
  destruct (window_is_slice_of_full (P := Ref.pandas) scenario_file 7
              None "Subject1" (Some "15s") "D123456" scenario_start
              [10; 20; 5; 0] "15s" 15 "2021-01-01 08:00:15" "15s"
              (scenario_start + 15) 15 Hok Hs Hne eq_refl eq_refl)
    as (r0 & r & Hr0 & Hr & Hfull & Hslice & _).
  exists r0, r. repeat split; try assumption.
  rewrite Hslice, Hfull. reflexivity.
Defined.

(** C6, the claim as worded fails: a window start one minute before the
    first label lies outside the range of the series, and the reader
    returns all four samples. *)
Lemma early_window_start_keeps_samples :
  Ref.iso_datetime "2021-01-01 07:59:00" = Some (scenario_start - 60)
  /\ (exists r0,
        outcome (read_ref scenario_file None None None) = inr r0
        /\ index (raw_data r0)
           = [ scenario_start; scenario_start + 15; scenario_start + 30;
               scenario_start + 45 ])
  /\ exists r,
       outcome (read_ref scenario_file None
                  (Some "2021-01-01 07:59:00") None) = inr r
       /\ raw_data r
          = [ (scenario_start, 10); (scenario_start + 15, 20);
              (scenario_start + 30, 5); (scenario_start + 45, 0) ]
       /\ raw_data r <> [].
Proof.
  split; [reflexivity |]. split.
  - eexists. split; vm_compute; reflexivity.
  - eexists. split; [vm_compute; reflexivity |].
    split; [reflexivity | discriminate].
Qed.

(** C6, amended.  On a well-formed file decoded with a window start S that
    pandas parses (and a [period] that it parses, when one is given), the
    reader returns a record and raises nothing.  When S lies after the last
    label of the full series the returned series is empty.  When S lies
    before the first label the returned series holds every sample whose
    label is at most the window end [S + period]; it is empty only when
    the window end also precedes the first label. *)
Theorem window_start_outside_series {P : Pandas} (input : list string)
    (hs : Z) (frequency period : option string) (name : string)
    (freq : option string) (uuid : string) (start : Z) (data : list Z)
    (fq : string) (step : Z) (s : string) (S : Z) :
  header_ok input hs name freq uuid start data ->
  sampling freq frequency fq step ->
  data <> [] ->
  to_datetime s = Some S ->
  (forall p, period = Some p -> Timedelta p <> None) ->
  exists r,
    outcome (RawAWD_init input hs frequency (Some s) period) = inr r
    /\ raw_start_time r = S
    /\ (start + (Z.of_nat (List.length data) - 1) * step < S ->
        raw_data r = [])
    /\ (S < start ->
        raw_data r
        = filter (fun q => fst q <=? S + raw_period r)
            (full_series start data step))
    /\ (S < start -> start <= S + raw_period r -> raw_data r <> []).
Proof.
  intros Hok Hsamp Hne Hs Hper.
  destruct Hsamp as (Hfq & Hoff & Htd & Hpos).
  destruct (assign_device_type_total uuid) as [dtype Hd].
  assert (Hws : outcome (window_start (Some s) start) = inr S).
  { cbn [window_start]. unfold pd_to_datetime.
    now rewrite outcome_lift, Hs. }
  assert (Hwin : exists per,
             outcome (window_stop period S (full_series start data step))
             = inr (S + per, per)).
  { destruct period as [p |].
    - rewrite outcome_window_stop_period.
      destruct (Timedelta p) as [per |] eqn:Hp;
        [now exists per | now destruct (Hper p eq_refl)].
    - rewrite outcome_window_stop_none, last_label_full_series by assumption.
      eexists. do 2 f_equal. lia. }
  destruct Hwin as [per Hwin].
  pose proof (init_returns input hs frequency (Some s) period
                name freq uuid start data dtype fq step step S (S + per, per)
                Hok Hd Hfq Hoff Htd Hws Hwin) as Hr.
  eexists. split; [exact Hr |].
  cbn [raw_start_time raw_data raw_period fst snd].
  assert (Hb : forall t, In t (index (full_series start data step)) ->
            start <= t <= start + (Z.of_nat (List.length data) - 1) * step).
  { intros t Ht. rewrite index_full_series in Ht.
    now apply regular_index_bounds. }
  split; [reflexivity |]. split; [| split].
  - intro Hafter. apply loc_slice_none. intros t Ht.
    specialize (Hb t Ht). lia.
  - intro Hbefore. apply loc_slice_below. intros t Ht.
    specialize (Hb t Ht). lia.
  - intros Hbefore Hend Hnil.
    destruct data as [| v vs]; [congruence |].
    assert (Hin : In (start, v)
                    (loc_slice S (S + per)
                       (full_series start (v :: vs) step))).
    { apply loc_slice_In. split.
      - left. cbn. f_equal. lia.
      - cbn [fst]. lia. }
    rewrite Hnil in Hin. exact Hin.
Qed.

Lemma window_start_outside_series_witness :
  exists r,
    outcome (read_ref scenario_file None
               (Some "2021-01-01 09:00:00") None) = inr r
    /\ raw_data r = [].
Proof.
  assert (Hok : header_ok (P := Ref.pandas) scenario_file 7
                  "Subject1" (Some "15s") "D123456" scenario_start
                  [10; 20; 5; 0])
    by (repeat split; try reflexivity; vm_compute; lia).
  assert (Hs : sampling (P := Ref.pandas) (Some "15s") None "15s" 15)
    by (repeat split; reflexivity).
  assert (Hne : [10; 20; 5; 0] <> []) by discriminate.
  assert (Hp : forall p, @None string = Some p ->
                         @Timedelta Ref.pandas p <> None)
    by (intros p H; discriminate H).
  destruct (window_start_outside_series (P := Ref.pandas) scenario_file 7
              None None "Subject1" (Some "15s") "D123456" scenario_start
              [10; 20; 5; 0] "15s" 15 "2021-01-01 09:00:00"
              (scenario_start + 3600) Hok Hs Hne eq_refl Hp)
    as (r & Hr & _ & Hafter & _).
  exists r. split; [exact Hr |].
  apply Hafter. vm_compute. reflexivity.
Defined.


(* ------------------------------------------------------------------ *)
(** ** Short files and short headers *)

(** X1.  A file with fewer lines than [header_size] makes [next(f)] raise
    [StopIteration]: nothing is parsed and no message is emitted. *)
Theorem short_file_raises_StopIteration {P : Pandas} (input : list string)
    (hs : Z) (frequency start_time period : option string) :
  (List.length input < Z.to_nat hs)%nat ->
  RawAWD_init input hs frequency start_time period = ([], inl StopIteration).
Proof.
  intro Hlt.
  rewrite (run_eta (RawAWD_init input hs frequency start_time period)).
  rewrite init_events, init_outcome.
  apply Nat.leb_gt in Hlt. now rewrite Hlt.
Qed.

Lemma short_file_raises_StopIteration_witness :
  read_ref (firstn 5 scenario_file) None None None
  = ([], inl StopIteration).
Proof.
  apply (short_file_raises_StopIteration (P := Ref.pandas)).
  vm_compute. lia.
Defined.

Lemma nth_error_firstn_short {A} (l : list A) (n i : nat) :
  (n <= i)%nat -> nth_error (firstn n l) i = None.
Proof.
  intro H. apply nth_error_None.
  pose proof (length_firstn n l) as Hl. lia.
Qed.

(** X2.  The reader reads header lines 0 to 5, so a [header_size] below 6
    never gives a record: when the file has that many lines and the lines
    after them parse as samples, the subscript of a missing header line
    raises [IndexError]. *)
Theorem header_size_below_six_fails {P : Pandas} (input : list string)
    (hs : Z) (frequency start_time period : option string) :
  (Z.to_nat hs < 6)%nat ->
  (forall r,
     outcome (RawAWD_init input hs frequency start_time period) <> inr r)
  /\ (forall data,
        (Z.to_nat hs <= List.length input)%nat ->
        outcome (load_data (skipn (Z.to_nat hs) input)) = inr data ->
        outcome (RawAWD_init input hs frequency start_time period)
        = inl IndexError).
Proof.
  intro Hlt.
  assert (H5 : nth_error (firstn (Z.to_nat hs) input) 5 = None)
    by (apply nth_error_firstn_short; lia).
  split.
  - intros r Hr.
    apply init_returns_inv in Hr
      as (name & freq & uuid & start & data & dtype & fq & step & fqd
          & wstart & win & Hok & _).
    destruct Hok as (_ & _ & _ & _ & Huuid & _).
    rewrite outcome_extract_awd_uuid, H5 in Huuid. discriminate.
  - intros data Hn Hdata. rewrite init_outcome.
    apply Nat.leb_le in Hn. rewrite Hn, Hdata.
    rewrite outcome_extract_awd_name, outcome_extract_awd_frequency,
      outcome_extract_awd_uuid, H5.
    destruct (nth_error _ 0); [| reflexivity].
    destruct (nth_error _ 3); reflexivity.
Qed.

Lemma header_size_below_six_fails_witness :
  outcome (RawAWD_init (P := Ref.pandas)
             [ ln "Subject1"; ln "2021-01-01"; ln "7 a"; ln "8 b" ]
             2 None None None)
  = inl IndexError.
Proof.
  assert (Hlt : (Z.to_nat 2 < 6)%nat) by (vm_compute; lia).
  apply (proj2 (header_size_below_six_fails (P := Ref.pandas)
                  [ ln "Subject1"; ln "2021-01-01"; ln "7 a"; ln "8 b" ]
                  2 None None None Hlt) [7; 8]).
  - vm_compute. lia.
  - reflexivity.
Defined.

(* ------------------------------------------------------------------ *)
(** ** The name and the identifier *)

Lemma replace_nl_no_lf s : no_lf (Py.replace_nl s) = true.
Proof.
  unfold no_lf. induction s as [| c r IH]; [reflexivity |].
  cbn [Py.replace_nl]. destruct (Ascii.eqb c Py.LF) eqn:Hc; [exact IH |].
  cbn [Py.all_chars]. now rewrite Hc, IH.
Qed.

Lemma replace_nl_app a b :
  Py.replace_nl (a ++ b) = Py.replace_nl a ++ Py.replace_nl b.
Proof.
  induction a as [| c r IH]; [reflexivity |].
  cbn [append Py.replace_nl]. destruct (Ascii.eqb c Py.LF);
    [exact IH | cbn [append]; now f_equal].
Qed.

Lemma replace_nl_clean s : no_lf s = true -> Py.replace_nl s = s.
Proof.
  unfold no_lf. induction s as [| c r IH]; [reflexivity |].
  cbn [Py.all_chars Py.replace_nl]. intro H.
  apply andb_true_iff in H as [Hc Hr]. apply negb_true_iff in Hc.
  rewrite Hc. now rewrite (IH Hr).
Qed.

Lemma string_app_nil_r (s : string) : s ++ "" = s.
Proof.
  induction s as [| c r IH]; [reflexivity |]. cbn [append]. now f_equal.
Qed.

(** X3.  The name and the identifier of a returned record never hold a line
    feed; when header lines 0 and 5 are a text without line feed followed
    by the terminator, they are exactly that text (blanks included: only
    the frequency code is trimmed). *)
Theorem name_and_uuid_lose_only_the_line_feed {P : Pandas}
    (input : list string) (hs : Z)
    (frequency start_time period : option string) (r : RawAWD) :
  outcome (RawAWD_init input hs frequency start_time period) = inr r ->
  no_lf (raw_name r) = true
  /\ no_lf (raw_uuid r) = true
  /\ (forall s, no_lf s = true ->
        nth_error input 0 = Some (s ++ Py.nl) -> raw_name r = s)
  /\ (forall s, no_lf s = true ->
        nth_error input 5 = Some (s ++ Py.nl) -> raw_uuid r = s).
Proof.
  intro Hr.
  apply init_returns_inv in Hr
    as (name & freq & uuid & start & data & dtype & fq & step & fqd
        & wstart & win & Hok & _ & _ & _ & _ & _ & _ & ->).
  destruct Hok as (Hn & _ & Hname & _ & Huuid & _).
  rewrite outcome_extract_awd_name in Hname.
  rewrite outcome_extract_awd_uuid in Huuid.
  destruct (nth_error (firstn (Z.to_nat hs) input) 0) as [h0 |] eqn:H0;
    [| discriminate].
  destruct (nth_error (firstn (Z.to_nat hs) input) 5) as [h5 |] eqn:H5;
    [| discriminate].
  injection Hname as <-. injection Huuid as <-.
  cbn [raw_name raw_uuid].
  assert (Hfirst : forall i x,
            nth_error (firstn (Z.to_nat hs) input) i = Some x ->
            nth_error input i = Some x).
  { intros i x Hx.
    assert (Hi : (i < Z.to_nat hs)%nat).
    { destruct (Nat.lt_ge_cases i (Z.to_nat hs)) as [Hlt | Hge];
        [exact Hlt |].
      rewrite nth_error_firstn_short in Hx by exact Hge. discriminate. }
    rewrite nth_error_firstn in Hx. apply Nat.ltb_lt in Hi.
    now rewrite Hi in Hx. }
  assert (Hclean : forall s, no_lf s = true ->
            Py.replace_nl (s ++ Py.nl) = s).
  { intros s Hs. rewrite replace_nl_app, (replace_nl_clean s Hs).
    apply string_app_nil_r. }
  repeat split.
  - apply replace_nl_no_lf.
  - apply replace_nl_no_lf.
  - intros s Hs Hline. apply Hfirst in H0. rewrite H0 in Hline.
    injection Hline as ->. now apply Hclean.
  - intros s Hs Hline. apply Hfirst in H5. rewrite H5 in Hline.
    injection Hline as ->. now apply Hclean.
Qed.

Lemma name_and_uuid_lose_only_the_line_feed_witness :
  exists r,
    outcome (read_ref (awd_file "1" " D12 " scenario_lines) None None None)
      = inr r
    /\ raw_name r = "Subject1" /\ raw_uuid r = " D12 ".
Proof.
  destruct (outcome (read_ref (awd_file "1" " D12 " scenario_lines)
                       None None None)) as [e | r] eqn:Hr;
    [vm_compute in Hr; discriminate |].
  exists r. split; [reflexivity |].
  destruct (name_and_uuid_lose_only_the_line_feed (P := Ref.pandas)
              _ _ _ _ _ r Hr) as (_ & _ & Hname & Huuid).
  split; [apply Hname | apply Huuid]; reflexivity.
Defined.

(* ------------------------------------------------------------------ *)
(** ** The device type and the accessor *)

Lemma capitalize_facts c :
  Py.isalpha (Py.capitalize c) = Py.isalpha c
  /\ Py.capitalize (Py.capitalize c) = Py.capitalize c.
Proof.
  destruct c as [[] [] [] [] [] [] [] []]; split; reflexivity.
Qed.

Lemma device_code_keys_are_letters c :
  Py.isalpha c = false ->
  Py.lookup (String (Py.capitalize c) "") device_code = None.
Proof.
  destruct c as [[] [] [] [] [] [] [] []]; vm_compute; congruence.
Qed.

(** X4.  For an identifier whose first character is an ASCII character,
    the device type depends on that character only, and not on its case:
    the whole run of the extraction (value and warning) is the same on the
    capitalized first character followed by any other text. *)
Theorem device_type_from_first_letter (c : ascii) (rest rest' : string) :
  (Py.code c < 128)%nat ->
  extract_awd_model (String c rest)
  = extract_awd_model (String (Py.capitalize c) rest').
Proof.
  intros _. cbn [extract_awd_model].
  destruct (capitalize_facts c) as [-> ->]. reflexivity.
Qed.

Lemma device_type_from_first_letter_witness :
  extract_awd_model "d1234" = extract_awd_model "D680012"
  /\ outcome (extract_awd_model "d1234") = inr "D".
Proof.
  assert (Hascii : (Py.code "d" < 128)%nat) by (vm_compute; lia).
  split; [| reflexivity].
  exact (device_type_from_first_letter "d" "1234" "680012" Hascii).
Defined.

(** X5.  On a record the reader returned, the accessor emits nothing, and
    it returns a model name exactly when the identifier starts with a
    character whose capital is a key of [device_code]; the name is then the
    entry of that key. *)
Theorem model_returns_iff_mapped_letter {P : Pandas} (input : list string)
    (hs : Z) (frequency start_time period : option string) (r : RawAWD) :
  outcome (RawAWD_init input hs frequency start_time period) = inr r ->
  events (model r) = []
  /\ forall m,
       outcome (model r) = inr m
       <-> exists c rest,
             raw_uuid r = String c rest
             /\ Py.lookup (String (Py.capitalize c) "") device_code = Some m.
Proof.
  intro Hr. pose proof (model_after_init _ _ _ _ _ _ Hr) as Hm.
  destruct (raw_uuid r) as [| c rest] eqn:Hu.
  - rewrite Hm. split; [reflexivity |]. intro m. split; [discriminate |].
    intros (c & rest & Hc & _). discriminate.
  - destruct (Py.isalpha c) eqn:Ha.
    + destruct (Py.lookup (String (Py.capitalize c) "") device_code)
        as [m' |] eqn:Hl; rewrite Hm; (split; [reflexivity |]); intro m;
        cbn [outcome snd]; split.
      * intro H. injection H as <-. now exists c, rest.
      * intros (c' & rest' & Hc & Hl'). injection Hc as <- <-. congruence.
      * discriminate.
      * intros (c' & rest' & Hc & Hl'). injection Hc as <- <-. congruence.
    + rewrite Hm. split; [reflexivity |]. intro m. split; [discriminate |].
      intros (c' & rest' & Hc & Hl'). injection Hc as <- <-.
      rewrite (device_code_keys_are_letters c Ha) in Hl'. discriminate.
Qed.

Lemma model_returns_iff_mapped_letter_witness :
  exists r,
    outcome (read_ref (file_with_uuid "s77") None None None) = inr r
    /\ outcome (model r) = inr "Actiwatch-S (env. sound)".
Proof.
  destruct (outcome (read_ref (file_with_uuid "s77") None None None))
    as [e | r] eqn:Hr; [vm_compute in Hr; discriminate |].
  exists r. split; [reflexivity |].
  apply (proj2 (model_returns_iff_mapped_letter (P := Ref.pandas)
                  _ _ _ _ _ r Hr)).
  exists "s"%char, "77". split; [| reflexivity].
  vm_compute in Hr. injection Hr as <-. reflexivity.
Defined.

(* ------------------------------------------------------------------ *)
(** ** The messages of a run *)

Lemma nth_error_firstn_Some {A} (l : list A) (n i : nat) (x : A) :
  nth_error (firstn n l) i = Some x -> nth_error l i = Some x.
Proof.
  intro Hx.
  destruct (Nat.lt_ge_cases i n) as [Hlt | Hge].
  - rewrite nth_error_firstn in Hx. apply Nat.ltb_lt in Hlt.
    now rewrite Hlt in Hx.
  - rewrite nth_error_firstn_short in Hx by exact Hge. discriminate.
Qed.

(** X6.  A run that returns a record has emitted at most two messages, in
    this order: the printed message when the code of header line 3 is not
    in the frequency table, then one warning when the identifier starts
    with a letter that is not a device code or with a character that is
    not a letter.  A known code and a mapped (or empty) identifier give a
    silent run. *)
Theorem messages_of_a_returned_record {P : Pandas} (input : list string)
    (hs : Z) (frequency start_time period : option string) (r : RawAWD)
    (h3 : string) :
  outcome (RawAWD_init input hs frequency start_time period) = inr r ->
  nth_error input 3 = Some h3 ->
  events (RawAWD_init input hs frequency start_time period) =
  (match Py.lookup (Py.strip (Py.replace_nl h3)) frequency_code with
   | Some _ => []
   | None => [Printed msg_no_frequency]
   end
   ++ match raw_uuid r with
      | EmptyString => []
      | String c _ =>
          if Py.isalpha c then
            match Py.lookup (String (Py.capitalize c) "") device_code with
            | Some _ => []
            | None =>
                [Warned (msg_unsupported (String (Py.capitalize c) ""))]
            end
          else [Warned msg_undetermined]
      end)%list.
Proof.
  intros Hr H3.
  apply init_returns_inv in Hr
    as (name & freq & uuid & start & data & dtype & fq & step & fqd
        & wstart & win & Hok & _ & _ & _ & _ & _ & _ & ->).
  destruct Hok as (Hn & Hdata & Hname & Hfreq & Huuid & Hstart).
  rewrite init_events. apply Nat.leb_le in Hn.
  rewrite Hn, Hdata, Hname, Hfreq, Huuid, Hstart.
  rewrite events_extract_awd_frequency.
  rewrite outcome_extract_awd_frequency in Hfreq.
  destruct (nth_error (firstn (Z.to_nat hs) input) 3) as [h |] eqn:Hh;
    [| discriminate].
  apply nth_error_firstn_Some in Hh. rewrite Hh in H3. injection H3 as ->.
  f_equal. cbn [raw_uuid].
  destruct uuid as [| c rest]; [reflexivity |].
  unfold assign_device_type. rewrite events_bind.
  cbn [extract_awd_model].
  destruct (Py.isalpha c); [| reflexivity].
  now destruct (Py.lookup (String (Py.capitalize c) "") device_code).
Qed.

Lemma messages_of_a_returned_record_witness :
  events (read_ref (awd_file "99" "q1" scenario_lines)
            (Some "30s") None None)
  = [Printed msg_no_frequency; Warned (msg_unsupported "Q")].
Proof.
  destruct (outcome (read_ref (awd_file "99" "q1" scenario_lines)
                       (Some "30s") None None)) as [e | r] eqn:Hr;
    [vm_compute in Hr; discriminate |].
  unfold read_ref, read_raw_awd in *.
  rewrite (messages_of_a_returned_record (P := Ref.pandas)
             _ _ _ _ _ r (ln "99") Hr eq_refl).
  vm_compute in Hr. injection Hr as <-. reflexivity.
Defined.

(* ------------------------------------------------------------------ *)
(** ** What the reader does not look at *)

(** X7.  When the code of header line 3 is in the frequency table, the
    caller's [frequency] is not used: any two values of the option give the
    same run. *)
Theorem fallback_unused_when_code_known {P : Pandas} (input : list string)
    (hs : Z) (fb fb' start_time period : option string)
    (h3 alias : string) :
  nth_error (firstn (Z.to_nat hs) input) 3 = Some h3 ->
  Py.lookup (Py.strip (Py.replace_nl h3)) frequency_code = Some alias ->
  RawAWD_init input hs fb start_time period
  = RawAWD_init input hs fb' start_time period.
Proof.
  intros H3 Hcode.
  rewrite (run_eta (RawAWD_init input hs fb start_time period)).
  rewrite (run_eta (RawAWD_init input hs fb' start_time period)).
  rewrite !init_events, !init_outcome.
  rewrite outcome_extract_awd_frequency, H3, Hcode. reflexivity.
Qed.

Lemma fallback_unused_when_code_known_witness :
  read_ref scenario_file (Some "30s") None None
  = read_ref scenario_file None None None.
Proof.
  exact (fallback_unused_when_code_known (P := Ref.pandas) scenario_file 7
           (Some "30s") None None None (ln "1") "15s" eq_refl eq_refl).
Defined.

(** X8.  The reader uses header lines 0, 1, 2, 3 and 5 and the lines after
    the header, nothing else: two files of the same length that agree on
    these have the same run, whatever their other header lines hold. *)
Theorem only_five_header_lines_matter {P : Pandas}
    (input input' : list string) (hs : Z)
    (frequency start_time period : option string) :
  List.length input = List.length input' ->
  skipn (Z.to_nat hs) input = skipn (Z.to_nat hs) input' ->
  (forall i, In i [0; 1; 2; 3; 5]%nat ->
     nth_error (firstn (Z.to_nat hs) input) i
     = nth_error (firstn (Z.to_nat hs) input') i) ->
  RawAWD_init input hs frequency start_time period
  = RawAWD_init input' hs frequency start_time period.
Proof.
  intros Hlen Hrest Hlines.
  rewrite (run_eta (RawAWD_init input hs frequency start_time period)).
  rewrite (run_eta (RawAWD_init input' hs frequency start_time period)).
  rewrite !init_events, !init_outcome.
  rewrite !events_extract_awd_frequency, !outcome_extract_awd_name,
    !outcome_extract_awd_frequency, !outcome_extract_awd_uuid,
    !outcome_extract_awd_start_time.
  rewrite Hlen, Hrest.
  rewrite (Hlines 0%nat), (Hlines 1%nat), (Hlines 2%nat), (Hlines 3%nat),
    (Hlines 5%nat) by (cbn; tauto).
  reflexivity.
Qed.

Lemma only_five_header_lines_matter_witness :
  read_ref
    ([ ln "Subject1"; ln "2021-01-01"; ln "08:00:00"; ln "1"; ln "other";
       ln "D123456"; ln "text" ] ++ scenario_lines)%list None None None
  = read_ref scenario_file None None None.
Proof.
  apply (only_five_header_lines_matter (P := Ref.pandas));
    [reflexivity | reflexivity |].
  intros i Hi. cbn in Hi.
  destruct Hi as [<- | [<- | [<- | [<- | [<- | []]]]]]; reflexivity.
Defined.


(* ------------------------------------------------------------------ *)
(** ** Data lines *)

(** X9.  Loading the lines of two blocks one after the other: the first
    malformed line in file order decides the exception, and otherwise the
    samples of the second block follow those of the first. *)
Theorem load_data_app (a b : list string) :
  outcome (load_data (a ++ b)) =
  match outcome (load_data a) with
  | inl e => inl e
  | inr va =>
      match outcome (load_data b) with
      | inl e => inl e
      | inr vb => inr (va ++ vb)%list
      end
  end.
Proof.
  induction a as [| line rest IH].
  - cbn [app]. now destruct (outcome (load_data b)).
  - cbn [app]. rewrite !outcome_load_data_cons, IH.
    destruct (Py.int (Py.split_space_head line)); [| reflexivity].
    destruct (outcome (load_data rest)); [reflexivity |].
    now destruct (outcome (load_data b)).
Qed.

Lemma split_space_head_clean tok :
  no_space tok = true -> Py.split_space_head tok = tok.
Proof.
  unfold no_space. induction tok as [| c r IH]; [reflexivity |].
  cbn [Py.all_chars Py.split_space_head]. intro H.
  apply andb_true_iff in H as [Hc Hr]. apply negb_true_iff in Hc.
  rewrite Hc. now rewrite (IH Hr).
Qed.

Lemma split_space_head_app tok rest :
  no_space tok = true ->
  Py.split_space_head (tok ++ String " " rest) = tok.
Proof.
  unfold no_space. induction tok as [| c r IH]; [reflexivity |].
  cbn [Py.all_chars append Py.split_space_head]. intro H.
  apply andb_true_iff in H as [Hc Hr]. apply negb_true_iff in Hc.
  rewrite Hc. now rewrite (IH Hr).
Qed.

(** X10.  Whatever follows the first SPACE of a data line is not looked
    at: the line gives the same run as its first field alone. *)
Theorem sample_ignores_text_after_first_space (tok rest : string) :
  no_space tok = true ->
  parse_sample (tok ++ String " " rest) = parse_sample tok.
Proof.
  intro H. unfold parse_sample.
  now rewrite split_space_head_app, split_space_head_clean.
Qed.

Lemma sample_ignores_text_after_first_space_witness :
  parse_sample ("-12 M" ++ Py.nl) = ([], inr (-12)).
Proof.
  change ("-12 M" ++ Py.nl) with ("-12" ++ String " " ("M" ++ Py.nl)).
  rewrite (sample_ignores_text_after_first_space "-12" ("M" ++ Py.nl))
    by reflexivity.
  reflexivity.
Defined.

Lemma int_digits_digit c r acc b :
  Py.isdigit c = true ->
  Py.int_digits (String c r) acc b
  = Py.int_digits r (10 * acc + Py.digit_val c) true.
Proof. intro H. cbn [Py.int_digits]. now rewrite H. Qed.

Ltac digit_step IH :=
  rewrite int_digits_digit by reflexivity; rewrite <- IH; f_equal;
  match goal with
  | |- context [Py.digit_val ?c] =>
      let k := fresh "k" in
      set (k := Py.digit_val c); vm_compute in k; subst k
  end; lia.

Lemma int_digits_uint_acc d acc :
  Py.int_digits (DecimalString.NilEmpty.string_of_uint d) (Z.pos acc) true
  = Some (Z.pos (Pos.of_uint_acc d acc)).
Proof.
  revert acc. induction d as [| d IH | d IH | d IH | d IH | d IH | d IH
                              | d IH | d IH | d IH | d IH]; intro acc;
    cbn [DecimalString.NilEmpty.string_of_uint Pos.of_uint_acc];
    [reflexivity | digit_step IH ..].
Qed.

Lemma int_digits_uint d b :
  d <> Decimal.Nil \/ b = true ->
  Py.int_digits (DecimalString.NilEmpty.string_of_uint d) 0 b
  = Some (Z.of_uint d).
Proof.
  revert b. induction d as [| d IH | d IH | d IH | d IH | d IH | d IH
                            | d IH | d IH | d IH | d IH]; intros b Hb;
    cbn [DecimalString.NilEmpty.string_of_uint].
  - destruct Hb as [Hb | ->]; [congruence | reflexivity].
  - rewrite int_digits_digit by reflexivity.
    change (10 * 0 + Py.digit_val "0") with 0.
    rewrite IH by now right. reflexivity.
  - rewrite int_digits_digit by reflexivity. apply int_digits_uint_acc.
  - rewrite int_digits_digit by reflexivity. apply int_digits_uint_acc.
  - rewrite int_digits_digit by reflexivity. apply int_digits_uint_acc.
  - rewrite int_digits_digit by reflexivity. apply int_digits_uint_acc.
  - rewrite int_digits_digit by reflexivity. apply int_digits_uint_acc.
  - rewrite int_digits_digit by reflexivity. apply int_digits_uint_acc.
  - rewrite int_digits_digit by reflexivity. apply int_digits_uint_acc.
  - rewrite int_digits_digit by reflexivity. apply int_digits_uint_acc.
  - rewrite int_digits_digit by reflexivity. apply int_digits_uint_acc.
Qed.

Lemma string_of_uint_chars (p : ascii -> bool) d :
  (forall c, Py.isdigit c = true -> p c = true) ->
  Py.all_chars p (DecimalString.NilEmpty.string_of_uint d) = true.
Proof.
  intro Hp. induction d; cbn [DecimalString.NilEmpty.string_of_uint
                                Py.all_chars];
    [reflexivity | rewrite IHd, Hp by reflexivity; reflexivity ..].
Qed.

Lemma digit_not_space_int c :
  Py.isdigit c = true -> negb (Py.isspace_int c) = true.
Proof.
  destruct c as [[] [] [] [] [] [] [] []]; vm_compute; congruence.
Qed.

Lemma digit_not_space_char c :
  Py.isdigit c = true -> negb (Ascii.eqb c " ") = true.
Proof.
  destruct c as [[] [] [] [] [] [] [] []]; vm_compute; congruence.
Qed.

Lemma rstrip_by_blank sp w :
  Py.all_chars sp w = true -> Py.rstrip_by sp w = "".
Proof.
  induction w as [| c r IH]; [reflexivity |].
  cbn [Py.all_chars Py.rstrip_by]. intro H.
  apply andb_true_iff in H as [Hc Hr]. now rewrite (IH Hr), Hc.
Qed.

Lemma rstrip_by_app sp s w :
  Py.all_chars sp w = true ->
  Py.rstrip_by sp (s ++ w) = Py.rstrip_by sp s.
Proof.
  intro Hw. induction s as [| c r IH].
  - cbn [append]. now rewrite rstrip_by_blank.
  - cbn [append Py.rstrip_by]. now rewrite IH.
Qed.

(** The text of an integer in decimal notation. *)
Lemma int_of_decimal (d : Decimal.int) (w : string) :
  match d with Decimal.Pos u | Decimal.Neg u => u <> Decimal.Nil end ->
  Py.all_chars Py.isspace_int w = true ->
  Py.int (DecimalString.NilEmpty.string_of_int d ++ w) = Some (Z.of_int d).
Proof.
  intros Hd Hw. unfold Py.int, Py.strip_by.
  set (s := DecimalString.NilEmpty.string_of_int d).
  assert (Hclean : Py.all_chars (fun c => negb (Py.isspace_int c)) s = true).
  { subst s. destruct d as [u | u];
      cbn [DecimalString.NilEmpty.string_of_int Py.all_chars].
    - apply string_of_uint_chars, digit_not_space_int.
    - rewrite string_of_uint_chars by apply digit_not_space_int.
      reflexivity. }
  assert (Hne : s <> "").
  { subst s. destruct d as [u | u]; [| discriminate].
    cbn [DecimalString.NilEmpty.string_of_int].
    destruct u; [congruence | discriminate ..]. }
  assert (Hl : Py.lstrip_by Py.isspace_int (s ++ w) = s ++ w).
  { destruct s as [| c r]; [congruence |].
    cbn [Py.all_chars] in Hclean.
    apply andb_true_iff in Hclean as [Hc _]. apply negb_true_iff in Hc.
    cbn [append Py.lstrip_by]. now rewrite Hc. }
  rewrite Hl, rstrip_by_app, rstrip_by_clean by assumption.
  subst s. destruct d as [u | u];
    cbn [DecimalString.NilEmpty.string_of_int Z.of_int].
  - destruct u; [congruence | ..];
      (etransitivity;
       [| apply (int_digits_uint _ false); left; discriminate];
       reflexivity).
  - rewrite int_digits_uint by now left. reflexivity.
Qed.

(** X11.  A data line made of the decimal text of an integer [z] of at
    most 4300 digits (the bound of the interpreter on [int]), followed
    either by a SPACE and anything or by the line terminator alone, loads
    as [z]. *)
Theorem sample_line_round_trip (z : Z) (rest : string) :
  Z.abs z < 10 ^ 4300 ->
  let dec := DecimalString.NilEmpty.string_of_int (Z.to_int z) in
  parse_sample (dec ++ String " " rest) = ([], inr z)
  /\ parse_sample (dec ++ Py.nl) = ([], inr z).
Proof.
  intros _ dec.
  assert (Hd : match Z.to_int z with
               | Decimal.Pos u | Decimal.Neg u => u <> Decimal.Nil
               end).
  { destruct z; cbn [Z.to_int]; [discriminate | ..];
      apply DecimalPos.Unsigned.to_uint_nonnil. }
  assert (Hns : no_space dec = true).
  { subst dec. unfold no_space. destruct (Z.to_int z) as [u | u];
      cbn [DecimalString.NilEmpty.string_of_int Py.all_chars].
    - apply string_of_uint_chars, digit_not_space_char.
    - rewrite string_of_uint_chars by apply digit_not_space_char.
      reflexivity. }
  assert (Hval : forall w, Py.all_chars Py.isspace_int w = true ->
            Py.int (dec ++ w) = Some z).
  { intros w Hw. subst dec. rewrite (int_of_decimal _ w Hd Hw).
    now rewrite DecimalZ.of_to. }
  split.
  - unfold parse_sample. rewrite split_space_head_app by exact Hns.
    rewrite <- (string_app_nil_r dec) at 2.
    now rewrite (Hval "" eq_refl).
  - unfold parse_sample.
    assert (Hsp : Py.split_space_head (dec ++ Py.nl) = dec ++ Py.nl).
    { apply split_space_head_clean. unfold no_space in *.
      clear Hval Hd. induction dec as [| c r IH]; [reflexivity |].
      cbn [append Py.all_chars] in *.
      apply andb_true_iff in Hns as [Hc Hr]. now rewrite Hc, IH. }
    rewrite Hsp. now rewrite (Hval Py.nl eq_refl).
Qed.

Lemma sample_line_round_trip_witness :
  parse_sample ("-2047 M" ++ Py.nl) = ([], inr (-2047))
  /\ parse_sample ("-2047" ++ Py.nl) = ([], inr (-2047)).
Proof.
  assert (Hb : Z.abs (-2047) < 10 ^ 4300) by (vm_compute; reflexivity).
  exact (sample_line_round_trip (-2047) ("M" ++ Py.nl) Hb).
Defined.

(* ------------------------------------------------------------------ *)
(** ** The frequency code and the blanks around it *)

Lemma replace_nl_blank w : all_blank w = true ->
  all_blank (Py.replace_nl w) = true.
Proof.
  unfold all_blank. induction w as [| c r IH]; [reflexivity |].
  cbn [Py.all_chars Py.replace_nl]. intro H.
  apply andb_true_iff in H as [Hc Hr].
  destruct (Ascii.eqb c Py.LF); [now apply IH |].
  cbn [Py.all_chars]. now rewrite Hc, IH.
Qed.

Lemma no_blank_no_lf s : no_blank s = true -> no_lf s = true.
Proof.
  unfold no_blank, no_lf. apply all_chars_weaken.
  intro c. destruct c as [[] [] [] [] [] [] [] []]; vm_compute; congruence.
Qed.

Lemma strip_padded pre code post :
  all_blank pre = true -> all_blank post = true -> no_blank code = true ->
  Py.strip (Py.replace_nl (pre ++ code ++ post)) = code.
Proof.
  intros Hpre Hpost Hcode.
  rewrite !replace_nl_app, (replace_nl_clean code (no_blank_no_lf _ Hcode)).
  apply replace_nl_blank in Hpre, Hpost. unfold all_blank in *.
  unfold Py.strip, Py.strip_by. rewrite lstrip_by_app by exact Hpre.
  destruct code as [| c r].
  - cbn [append].
    destruct (lstrip_by_split Py.isspace (Py.replace_nl post))
      as (w & Hw & _).
    assert (Hall : Py.all_chars Py.isspace
                     (Py.lstrip_by Py.isspace (Py.replace_nl post)) = true).
    { clear Hw. induction (Py.replace_nl post) as [| x y IH];
        [reflexivity |].
      cbn [Py.all_chars] in Hpost. apply andb_true_iff in Hpost as [Hx Hy].
      cbn [Py.lstrip_by]. rewrite Hx. now apply IH. }
    now apply rstrip_by_blank.
  - assert (Hl : Py.lstrip_by Py.isspace (String c r ++ Py.replace_nl post)
                 = String c r ++ Py.replace_nl post).
    { unfold no_blank in Hcode. cbn [Py.all_chars] in Hcode.
      apply andb_true_iff in Hcode as [Hc _]. apply negb_true_iff in Hc.
      cbn [append Py.lstrip_by]. now rewrite Hc. }
    rewrite Hl, rstrip_by_app by exact Hpost.
    now apply rstrip_by_clean.
Qed.

(** C7.  The frequency lookup is a function of the trimmed text of header
    line 3 alone: its whole run (value and message) is determined by that
    code, so two headers with the same code resolve alike.  The code is the
    line without its line feeds and without the white space around it: on
    a line made of a white-space-free code between white-space-only texts
    it is that code.  The codes "1", "81" and "C2" resolve to the aliases
    of 15, 2 and 10 seconds, and a code that is not in the table gives
    [None] after a printed message, without raising. *)
Theorem frequency_mapping_is_pure (header : list string) (h : string) :
  nth_error header 3 = Some h ->
  let code := Py.strip (Py.replace_nl h) in
  extract_awd_frequency header =
    match Py.lookup code frequency_code with
    | Some alias => ([], inr (Some alias))
    | None => ([Printed msg_no_frequency], inr None)
    end
  /\ (forall header' h',
        nth_error header' 3 = Some h' ->
        Py.strip (Py.replace_nl h') = code ->
        extract_awd_frequency header' = extract_awd_frequency header)
  /\ (code = "1" -> outcome (extract_awd_frequency header) = inr (Some "15s"))
  /\ (code = "81" -> outcome (extract_awd_frequency header) = inr (Some "2s"))
  /\ (code = "C2" -> outcome (extract_awd_frequency header) = inr (Some "10s"))
  /\ (Py.lookup code frequency_code = None ->
        outcome (extract_awd_frequency header) = inr None)
  /\ Ref.tick "15s" = Some 15 /\ Ref.tick "2s" = Some 2
  /\ Ref.tick "10s" = Some 10
  /\ (forall pre c post,
        h = pre ++ c ++ post ->
        all_blank pre = true -> all_blank post = true ->
        no_blank c = true ->
        code = c).
Proof.
  intros Hh code.
  assert (Hrun : forall hd x,
             nth_error hd 3 = Some x ->
             extract_awd_frequency hd =
             match Py.lookup (Py.strip (Py.replace_nl x)) frequency_code with
             | Some alias => ([], inr (Some alias))
             | None => ([Printed msg_no_frequency], inr None)
             end).
  { intros hd x Hx. unfold extract_awd_frequency, getitem. rewrite Hx.
    cbv beta iota delta [bind ret lift].
    now destruct (Py.lookup _ _). }
  split; [now apply Hrun |].
  split.
  { intros header' h' Hh' Hcode.
    rewrite (Hrun _ _ Hh'), (Hrun _ _ Hh), Hcode. reflexivity. }
  rewrite (Hrun _ _ Hh). fold code.
  repeat split; try reflexivity; try (intros ->; reflexivity).
  intros pre c post -> Hpre Hpost Hc. subst code.
  now apply strip_padded.
Qed.

Lemma frequency_mapping_is_pure_witness :
  extract_awd_frequency (awd_header "  1 " "D123456")
  = ([], inr (Some "15s")).
Proof.
  destruct (frequency_mapping_is_pure (awd_header "  1 " "D123456")
              (ln "  1 ") eq_refl)
    as (Hrun & _ & _ & _ & _ & _ & _ & _ & _ & Htrim).
  rewrite Hrun.
  rewrite (Htrim "  " "1" (" " ++ Py.nl) eq_refl eq_refl eq_refl eq_refl).
  reflexivity.
Defined.

(** X12.  The frequency code is read without the blanks around it: when
    header line 3 is a code without white space between white-space-only
    texts (the line terminator is one), the lookup runs as on the code
    alone. *)
Theorem frequency_code_is_trimmed (header : list string)
    (pre code post : string) :
  nth_error header 3 = Some (pre ++ code ++ post) ->
  all_blank pre = true ->
  all_blank post = true ->
  no_blank code = true ->
  extract_awd_frequency header =
  match Py.lookup code frequency_code with
  | Some alias => ([], inr (Some alias))
  | None => ([Printed msg_no_frequency], inr None)
  end.
Proof.
  intros H3 Hpre Hpost Hcode.
  unfold extract_awd_frequency, getitem. rewrite H3.
  cbv beta iota delta [bind ret lift].
  rewrite (strip_padded pre code post Hpre Hpost Hcode).
  now destruct (Py.lookup code frequency_code).
Qed.

Lemma frequency_code_is_trimmed_witness :
  extract_awd_frequency (awd_header "  81 " "D123456")
  = ([], inr (Some "2s")).
Proof.
  exact (frequency_code_is_trimmed (awd_header "  81 " "D123456")
           "  " "81" (" " ++ Py.nl) eq_refl eq_refl eq_refl eq_refl).
Defined.

(* ------------------------------------------------------------------ *)
(** ** The window, sample by sample *)

Lemma regular_index_cons start n step :
  regular_index start (S n) step
  = start :: regular_index (start + step) n step.
Proof.
  unfold regular_index. cbn [seq map]. f_equal; [lia |].
  rewrite <- seq_shift, map_map. apply map_ext. intro i. lia.
Qed.

Lemma full_series_cons start v vs step :
  full_series start (v :: vs) step
  = (start, v) :: full_series (start + step) vs step.
Proof.
  unfold full_series, mkSeries. cbn [List.length].
  now rewrite regular_index_cons.
Qed.

Lemma full_series_labels start data step t :
  0 < step -> In t (index (full_series start data step)) -> start <= t.
Proof.
  intros Hs Ht. rewrite index_full_series in Ht.
  apply (regular_index_bounds _ _ _ _ Hs) in Ht. lia.
Qed.

Lemma full_series_nth start data step j :
  (j < List.length data)%nat ->
  nth_error (full_series start data step) j
  = Some (start + Z.of_nat j * step, nth j data 0).
Proof.
  revert start j. induction data as [| v vs IH]; intros start j Hj;
    [cbn in Hj; lia |].
  rewrite full_series_cons. destruct j as [| j].
  - cbn. do 2 f_equal. lia.
  - cbn [nth_error nth]. rewrite IH by (cbn in Hj; lia).
    do 2 f_equal. lia.
Qed.

(** From a lower bound at or before the first label the slice is a prefix. *)
Lemma loc_slice_prefix a b start data step :
  0 < step -> a <= start ->
  exists m,
    loc_slice a b (full_series start data step)
    = firstn m (full_series start data step).
Proof.
  intros Hs. revert start. induction data as [| v vs IH]; intros start Ha.
  - now exists 0%nat.
  - destruct (Z_le_gt_dec start b) as [Hb | Hb].
    + destruct (IH (start + step) ltac:(lia)) as [m Hm].
      exists (S m). rewrite full_series_cons. cbn [firstn].
      unfold loc_slice in *. cbn [filter fst].
      replace ((a <=? start) && (start <=? b)) with true
        by (symmetry; apply andb_true_iff; split; apply Z.leb_le; lia).
      now rewrite Hm.
    + exists 0%nat. cbn [firstn]. apply loc_slice_none. intros t Ht.
      apply (full_series_labels _ _ _ _ Hs) in Ht. lia.
Qed.

(** Every label slice of the full series is a run of consecutive samples. *)
Lemma loc_slice_run a b start data step :
  0 < step ->
  exists k m,
    loc_slice a b (full_series start data step)
    = firstn m (skipn k (full_series start data step)).
Proof.
  intros Hs. revert start. induction data as [| v vs IH]; intro start.
  - now exists 0%nat, 0%nat.
  - destruct (Z_lt_ge_dec start a) as [Ha | Ha].
    + destruct (IH (start + step)) as (k & m & Hkm).
      exists (S k), m. rewrite full_series_cons. cbn [skipn].
      unfold loc_slice in *. cbn [filter fst].
      replace (a <=? start) with false by (symmetry; apply Z.leb_gt; lia).
      exact Hkm.
    + destruct (loc_slice_prefix a b start (v :: vs) step Hs ltac:(lia))
        as [m Hm].
      now exists 0%nat, m.
Qed.

Section Invert.

Context {P : Pandas}.

(** The window of a returned record ends at start time plus period. *)
Lemma window_stop_sum period wstart s win :
  outcome (window_stop period wstart s) = inr win ->
  fst win = wstart + snd win.
Proof.
  destruct period as [p |].
  - rewrite outcome_window_stop_period. destruct (Timedelta p);
      [| discriminate].
    intro H. injection H as <-. reflexivity.
  - rewrite outcome_window_stop_none. destruct (last_label (index s));
      [| discriminate].
    intro H. injection H as <-. cbn [fst snd]. lia.
Qed.

End Invert.

(** A record returned on a file whose header, data and sampling are known:
    its series is a label slice of the full regular series of that file and
    that step, and its sampling period is the step. *)
Lemma init_returns_pinned {P : Pandas} (input : list string) (hs : Z)
    (frequency start_time period : option string) (name : string)
    (freq : option string) (uuid : string) (start : Z) (data : list Z)
    (fq : string) (step : Z) (r : RawAWD) :
  header_ok input hs name freq uuid start data ->
  sampling freq frequency fq step ->
  outcome (RawAWD_init input hs frequency start_time period) = inr r ->
  raw_frequency r = step
  /\ raw_data r
     = loc_slice (raw_start_time r) (raw_start_time r + raw_period r)
         (full_series start data step).
Proof.
  intros (_ & Hdata & _ & Hfreq & _ & Hstart) (Hfq & Hoff & Htd & _) Hr.
  apply init_returns_inv in Hr
    as (name' & freq' & uuid' & start' & data' & dtype & fq' & step' & fqd
        & wstart & win & Hok' & _ & Hfq' & Hoff' & Htd' & _ & Hwin & ->).
  destruct Hok' as (_ & Hdata' & _ & Hfreq' & _ & Hstart').
  rewrite Hdata in Hdata'. injection Hdata' as <-.
  rewrite Hfreq in Hfreq'. injection Hfreq' as <-.
  rewrite Hstart in Hstart'. injection Hstart' as <-.
  rewrite Hfq in Hfq'. injection Hfq' as <-.
  rewrite Hoff in Hoff'. injection Hoff' as <-.
  rewrite Htd in Htd'. injection Htd' as <-.
  cbn [raw_frequency raw_data raw_start_time raw_period].
  split; [reflexivity |].
  now rewrite <- (window_stop_sum _ _ _ _ Hwin).
Qed.

(** X13.  On a file whose header, data lines and sampling are well formed
    (positive step), the start time and the period of a returned record
    describe its series exactly: the series holds the samples of the full
    regular series of the file (labels [start + i * step], with [step] the
    sampling period of the record) whose label lies in
    [start_time, start_time + period], both ends included, and no other.
    This also holds when the period was computed by the reader. *)
Theorem record_window_describes_series {P : Pandas} (input : list string)
    (hs : Z) (frequency start_time period : option string) (name : string)
    (freq : option string) (uuid : string) (start : Z) (data : list Z)
    (fq : string) (step : Z) (r : RawAWD) :
  header_ok input hs name freq uuid start data ->
  sampling freq frequency fq step ->
  outcome (RawAWD_init input hs frequency start_time period) = inr r ->
  raw_frequency r = step
  /\ forall q,
       In q (raw_data r)
       <-> In q (full_series start data (raw_frequency r))
           /\ raw_start_time r <= fst q
              <= raw_start_time r + raw_period r.
Proof.
  intros Hok Hsamp Hr.
  destruct (init_returns_pinned _ _ _ _ _ _ _ _ _ _ _ _ _ Hok Hsamp Hr)
    as (Hstep & Hdata).
  split; [exact Hstep |].
  intro q. rewrite Hstep, Hdata. apply loc_slice_In.
Qed.

Lemma record_window_describes_series_witness :
  exists r,
    outcome (read_ref scenario_file None
               (Some "2021-01-01 08:00:10") (Some "30s")) = inr r
    /\ raw_frequency r = 15
    /\ ~ In (scenario_start + 45, 0) (raw_data r)
    /\ In (scenario_start + 30, 5) (raw_data r).
Proof.
  assert (Hok : header_ok (P := Ref.pandas) scenario_file 7
                  "Subject1" (Some "15s") "D123456" scenario_start
                  [10; 20; 5; 0])
    by (repeat split; try reflexivity; vm_compute; lia).
  assert (Hs : sampling (P := Ref.pandas) (Some "15s") None "15s" 15)
    by (repeat split; reflexivity).
  destruct (outcome (read_ref scenario_file None
                       (Some "2021-01-01 08:00:10") (Some "30s")))
    as [e | r] eqn:Hr; [vm_compute in Hr; discriminate |].
  exists r. split; [reflexivity |].
  destruct (record_window_describes_series (P := Ref.pandas)
              scenario_file 7 None (Some "2021-01-01 08:00:10")
              (Some "30s") "Subject1" (Some "15s") "D123456"
              scenario_start [10; 20; 5; 0] "15s" 15 r Hok Hs Hr)
    as (Hstep & Hin).
  split; [exact Hstep |].
  vm_compute in Hr. injection Hr as <-. split.
  - intro Hq. apply Hin in Hq as (_ & _ & Hhi). cbn in Hhi. lia.
  - apply Hin. split; [| cbn; lia]. cbn. tauto.
Defined.

(** X14.  On a file whose header, data lines and sampling are well formed
    (positive step), the series of a returned record is a run of
    consecutive samples of the file with their own labels: for some offset
    [k], sample [i] of the record is sample [k + i] of the file, labelled
    [start + (k + i) * step] with [step] the sampling period of the
    record.  Windowing never reorders, skips or relabels samples. *)
Theorem windowed_series_is_a_run {P : Pandas} (input : list string)
    (hs : Z) (frequency start_time period : option string) (name : string)
    (freq : option string) (uuid : string) (start : Z) (data : list Z)
    (fq : string) (step : Z) (r : RawAWD) :
  header_ok input hs name freq uuid start data ->
  sampling freq frequency fq step ->
  outcome (RawAWD_init input hs frequency start_time period) = inr r ->
  raw_frequency r = step
  /\ exists k,
       (k + List.length (raw_data r) <= List.length data)%nat
       /\ forall i,
            (i < List.length (raw_data r))%nat ->
            nth_error (raw_data r) i
            = Some (start + Z.of_nat (k + i) * raw_frequency r,
                    nth (k + i) data 0).
Proof.
  intros Hok Hsamp Hr.
  destruct (init_returns_pinned _ _ _ _ _ _ _ _ _ _ _ _ _ Hok Hsamp Hr)
    as (Hstep & Hdata).
  destruct Hsamp as (_ & _ & _ & Hs).
  split; [exact Hstep |]. rewrite Hstep, Hdata.
  destruct (loc_slice_run (raw_start_time r)
              (raw_start_time r + raw_period r) start data step Hs)
    as (k & m & Hrun).
  rewrite Hrun.
  set (full := full_series start data step) in *.
  assert (Hfull : List.length full = List.length data)
    by apply full_series_length.
  assert (Hlen : List.length (firstn m (skipn k full))
                 = Nat.min m (List.length data - k)).
  { now rewrite length_firstn, length_skipn, Hfull. }
  destruct (Nat.le_gt_cases (List.length data) k) as [Hk | Hk].
  - (* the run is empty: any offset inside the file will do *)
    exists 0%nat.
    assert (Hnil : firstn m (skipn k full) = []).
    { rewrite skipn_all2 by lia. now destruct m. }
    rewrite Hnil. cbn [List.length]. split; [lia |].
    intros i Hi. lia.
  - exists k. split; [lia |].
    intros i Hi. rewrite Hlen in Hi.
    rewrite nth_error_firstn.
    replace (i <? m)%nat with true by (symmetry; apply Nat.ltb_lt; lia).
    rewrite nth_error_skipn. subst full.
    apply full_series_nth. lia.
Qed.

Lemma windowed_series_is_a_run_witness :
  exists r,
    outcome (read_ref scenario_file None
               (Some "2021-01-01 08:00:10") (Some "30s")) = inr r
    /\ raw_frequency r = 15
    /\ exists k,
         forall i, (i < List.length (raw_data r))%nat ->
           nth_error (raw_data r) i
           = Some (scenario_start + Z.of_nat (k + i) * raw_frequency r,
                   nth (k + i) [10; 20; 5; 0] 0).
Proof.
  assert (Hok : header_ok (P := Ref.pandas) scenario_file 7
                  "Subject1" (Some "15s") "D123456" scenario_start
                  [10; 20; 5; 0])
    by (repeat split; try reflexivity; vm_compute; lia).
  assert (Hs : sampling (P := Ref.pandas) (Some "15s") None "15s" 15)
    by (repeat split; reflexivity).
  destruct (outcome (read_ref scenario_file None
                       (Some "2021-01-01 08:00:10") (Some "30s")))
    as [e | r] eqn:Hr; [vm_compute in Hr; discriminate |].
  exists r. split; [reflexivity |].
  destruct (windowed_series_is_a_run (P := Ref.pandas)
              scenario_file 7 None (Some "2021-01-01 08:00:10")
              (Some "30s") "Subject1" (Some "15s") "D123456"
              scenario_start [10; 20; 5; 0] "15s" 15 r Hok Hs Hr)
    as (Hstep & k & _ & Hnth).
  split; [exact Hstep |]. now exists k.
Defined.

(** The slice from the first label to [b] keeps [(b - start) / step + 1]
    samples. *)
Lemma loc_slice_leading a b start data step :
  0 < step -> a <= start -> start <= b ->
  loc_slice a b (full_series start data step)
  = firstn (Z.to_nat ((b - start) / step) + 1) (full_series start data step).
Proof.
  intros Hs. revert start. induction data as [| v vs IH]; intros start Ha Hb.
  - now destruct (Z.to_nat ((b - start) / step) + 1)%nat.
  - rewrite full_series_cons. rewrite Nat.add_1_r. cbn [firstn].
    unfold loc_slice. cbn [filter fst].
    replace ((a <=? start) && (start <=? b)) with true
      by (symmetry; apply andb_true_iff; split; apply Z.leb_le; lia).
    f_equal. fold (loc_slice a b (full_series (start + step) vs step)).
    destruct (Z_le_gt_dec (start + step) b) as [Hin | Hout].
    + rewrite (IH (start + step)) by lia. f_equal.
      replace (b - start) with ((b - (start + step)) + 1 * step) by lia.
      rewrite Z.div_add by lia.
      assert (0 <= (b - (start + step)) / step)
        by (apply Z.div_pos; lia).
      lia.
    + rewrite Z.div_small by lia. cbn [Z.to_nat firstn].
      apply loc_slice_none. intros t Ht.
      apply (full_series_labels _ _ _ _ Hs) in Ht. lia.
Qed.

(** X15.  Decoding a well-formed file with a [period] P >= 0 and no window
    start returns the first [P / step + 1] samples of the file (all of them
    when there are fewer): the window end is included, so a period of
    three steps keeps four samples. *)
Theorem period_keeps_leading_samples {P : Pandas} (input : list string)
    (hs : Z) (frequency : option string) (name : string)
    (freq : option string) (uuid : string) (start : Z) (data : list Z)
    (fq : string) (step : Z) (p : string) (Pd : Z) :
  header_ok input hs name freq uuid start data ->
  sampling freq frequency fq step ->
  Timedelta p = Some Pd ->
  0 <= Pd ->
  exists r,
    outcome (RawAWD_init input hs frequency None (Some p)) = inr r
    /\ raw_data r
       = firstn (Z.to_nat (Pd / step) + 1) (full_series start data step)
    /\ List.length (raw_data r)
       = Nat.min (Z.to_nat (Pd / step) + 1) (List.length data)
    /\ raw_start_time r = start
    /\ raw_period r = Pd.
Proof.
  intros Hok (Hfq & Hoff & Htd & Hpos) Hp Hnn.
  destruct (assign_device_type_total uuid) as [dtype Hd].
  eexists. split.
  - apply (init_returns input hs frequency None (Some p)
             name freq uuid start data dtype fq step step start
             (start + Pd, Pd) Hok Hd Hfq Hoff Htd eq_refl).
    now rewrite outcome_window_stop_period, Hp.
  - cbn [raw_data raw_start_time raw_period fst snd].
    rewrite loc_slice_leading by lia.
    replace (start + Pd - start) with Pd by lia.
    repeat split.
    now rewrite length_firstn, full_series_length.
Qed.

Lemma period_keeps_leading_samples_witness :
  exists r,
    outcome (read_ref scenario_file None None (Some "30s")) = inr r
    /\ raw_data r
       = [ (scenario_start, 10); (scenario_start + 15, 20);
           (scenario_start + 30, 5) ].
Proof.
  assert (Hok : header_ok (P := Ref.pandas) scenario_file 7
                  "Subject1" (Some "15s") "D123456" scenario_start
                  [10; 20; 5; 0])
    by (repeat split; try reflexivity; vm_compute; lia).
  assert (Hs : sampling (P := Ref.pandas) (Some "15s") None "15s" 15)
    by (repeat split; reflexivity).
  assert (Hnn : 0 <= 30) by lia.
  destruct (period_keeps_leading_samples (P := Ref.pandas) scenario_file 7
              None "Subject1" (Some "15s") "D123456" scenario_start
              [10; 20; 5; 0] "15s" 15 "30s" 30 Hok Hs eq_refl Hnn)
    as (r & Hr & Hdata & _).
  exists r. split; [exact Hr |]. rewrite Hdata. reflexivity.
Defined.

(** The slice from [a] to the last label drops the samples before [a]. *)
Lemma loc_slice_trailing a b start data step :
  0 < step ->
  start + (Z.of_nat (List.length data) - 1) * step <= b ->
  loc_slice a b (full_series start data step)
  = skipn (Z.to_nat ((a - start + step - 1) / step))
      (full_series start data step).
Proof.
  intros Hs. revert start. induction data as [| v vs IH]; intros start Hb.
  - now rewrite skipn_nil.
  - destruct (Z_le_gt_dec a start) as [Ha | Ha].
    + assert (Hq : (a - start + step - 1) / step <= 0).
      { apply Z.lt_succ_r. apply Z.div_lt_upper_bound; lia. }
      replace (Z.to_nat ((a - start + step - 1) / step)) with 0%nat by lia.
      cbn [skipn]. apply loc_slice_all. intros t Ht.
      rewrite index_full_series in Ht.
      apply (regular_index_bounds _ _ _ _ Hs) in Ht. lia.
    + rewrite full_series_cons. unfold loc_slice. cbn [filter fst].
      replace (a <=? start) with false by (symmetry; apply Z.leb_gt; lia).
      cbn [andb]. fold (loc_slice a b (full_series (start + step) vs step)).
      rewrite (IH (start + step))
        by (cbn [List.length] in Hb; nia).
      replace (a - start + step - 1) with ((a - start - 1) + 1 * step)
        by lia.
      rewrite Z.div_add by lia.
      replace (a - (start + step) + step - 1) with (a - start - 1) by lia.
      assert (0 <= (a - start - 1) / step) by (apply Z.div_pos; lia).
      replace (Z.to_nat ((a - start - 1) / step + 1))
        with (S (Z.to_nat ((a - start - 1) / step))) by lia.
      reflexivity.
Qed.

(** X16.  Decoding a well-formed, non-empty file with a window start S and
    no [period] drops the samples labelled before S and keeps all the
    others, up to the last one: the series starts at the first label at or
    after S, and the recorded period is the last label minus S. *)
Theorem start_time_drops_leading_samples {P : Pandas} (input : list string)
    (hs : Z) (frequency : option string) (name : string)
    (freq : option string) (uuid : string) (start : Z) (data : list Z)
    (fq : string) (step : Z) (s : string) (S : Z) :
  header_ok input hs name freq uuid start data ->
  sampling freq frequency fq step ->
  data <> [] ->
  to_datetime s = Some S ->
  exists r,
    outcome (RawAWD_init input hs frequency (Some s) None) = inr r
    /\ raw_data r
       = skipn (Z.to_nat ((S - start + step - 1) / step))
           (full_series start data step)
    /\ raw_start_time r = S
    /\ raw_period r
       = start + (Z.of_nat (List.length data) - 1) * step - S.
Proof.
  intros Hok (Hfq & Hoff & Htd & Hpos) Hne Hs.
  destruct (assign_device_type_total uuid) as [dtype Hd].
  eexists. split.
  - apply (init_returns input hs frequency (Some s) None
             name freq uuid start data dtype fq step step S
             (start + (Z.of_nat (List.length data) - 1) * step,
              start + (Z.of_nat (List.length data) - 1) * step - S)
             Hok Hd Hfq Hoff Htd).
    + cbn [window_start]. unfold pd_to_datetime.
      now rewrite outcome_lift, Hs.
    + now rewrite outcome_window_stop_none, last_label_full_series.
  - cbn [raw_data raw_start_time raw_period fst snd].
    rewrite loc_slice_trailing by lia. repeat split.
Qed.

Lemma start_time_drops_leading_samples_witness :
  exists r,
    outcome (read_ref scenario_file None
               (Some "2021-01-01 08:00:20") None) = inr r
    /\ raw_data r = [ (scenario_start + 30, 5); (scenario_start + 45, 0) ].
Proof.
  assert (Hok : header_ok (P := Ref.pandas) scenario_file 7
                  "Subject1" (Some "15s") "D123456" scenario_start
                  [10; 20; 5; 0])
    by (repeat split; try reflexivity; vm_compute; lia).
  assert (Hs : sampling (P := Ref.pandas) (Some "15s") None "15s" 15)
    by (repeat split; reflexivity).
  assert (Hne : [10; 20; 5; 0] <> []) by discriminate.
  destruct (start_time_drops_leading_samples (P := Ref.pandas)
              scenario_file 7 None "Subject1" (Some "15s") "D123456"
              scenario_start [10; 20; 5; 0] "15s" 15
              "2021-01-01 08:00:20" (scenario_start + 20)
              Hok Hs Hne eq_refl)
    as (r & Hr & Hdata & _).
  exists r. split; [exact Hr |]. rewrite Hdata. reflexivity.
Defined.
